(** * openclaw-agent-patterns: the bot state store and its reconciler

    A shallow embedding of [trading-dashboard/bot_state.py] (the
    [BotStateWriter] class) and of [system-health-monitor/reconcile_state.py]
    (the [StateReconciler] class), followed by the properties of the two.

    Conventions of the embedding
    - a Python [dict] with string keys is a [gmap string _];
    - a JSON document is a value of [json]; [json.dumps] followed by
      [json.loads] is the identity on such values, so a file is represented
      by the document it holds rather than by its text;
    - the state directory [STATE_DIR] is a finite map from file names, split
      into stem and suffix, to files;
    - the clock is a counter: every [datetime.now] reads it and advances it;
    - exceptions are the [Raises] outcome of a computation. *)

From Stdlib Require Import ZArith Ascii Floats.PrimFloat Floats.FloatOps Floats.SpecFloat.
From stdpp Require Import gmap strings pretty list fin_maps.

Set Default Proof Using "Type".

(** ** Python strings (ASCII fragment)

    Every pattern the sources search for is made of ASCII letters, digits and
    underscores, and no non-ASCII character lower-cases to one of those
    letters followed by the rest of a pattern, so case conversion is modelled
    on the ASCII letters only. *)

Definition is_upper (c : ascii) : bool :=
  let n := nat_of_ascii c in (65 <=? n) && (n <=? 90).

Definition is_lower (c : ascii) : bool :=
  let n := nat_of_ascii c in (97 <=? n) && (n <=? 122).

Definition is_cased (c : ascii) : bool := is_upper c || is_lower c.

Definition ascii_lower (c : ascii) : ascii :=
  if is_upper c then ascii_of_nat (nat_of_ascii c + 32) else c.

Definition ascii_upper (c : ascii) : ascii :=
  if is_lower c then ascii_of_nat (nat_of_ascii c - 32) else c.

Fixpoint str_map (f : ascii → ascii) (s : string) : string :=
  match s with
  | EmptyString => EmptyString
  | String c t => String (f c) (str_map f t)
  end.

(** [s.lower()] *)
Definition lower (s : string) : string := str_map ascii_lower s.

(** [needle in hay] on strings *)
Fixpoint str_in (needle hay : string) : bool :=
  String.prefix needle hay ||
  match hay with
  | EmptyString => false
  | String _ t => str_in needle t
  end.

(** [s.replace(a, b)] for single characters *)
Definition replace_char (a b : ascii) (s : string) : string :=
  str_map (λ c, if Ascii.eqb c a then b else c) s.

(** [s.title()]: a letter is upper-cased when the character before it is not
    a letter, and lower-cased otherwise. *)
Fixpoint title_from (previous_is_cased : bool) (s : string) : string :=
  match s with
  | EmptyString => EmptyString
  | String c t =>
      String (if previous_is_cased then ascii_lower c else ascii_upper c)
             (title_from (is_cased c) t)
  end.

Definition title (s : string) : string := title_from false s.

(** [sep.join(parts)] *)
Fixpoint join (sep : string) (parts : list string) : string :=
  match parts with
  | [] => EmptyString
  | [p] => p
  | p :: rest => p +:+ sep +:+ join sep rest
  end.

(** [s[:n]] *)
Definition take_chars (n : nat) (s : string) : string := String.substring 0 n s.

(** ** JSON values and Python dictionaries *)

#[warnings="-register-all"]
Inductive json :=
  | JNull
  | JBool (b : bool)
  | JInt (z : Z)
  | JFloat (f : float)
  | JStr (s : string)
  | JArr (l : list json)
  | JObj (m : gmap string json).

Abbreviation dict := (gmap string json).

(** [d.get(k, dflt)] *)
Definition dict_get (d : dict) (k : string) (dflt : json) : json :=
  default dflt (d !! k).

(** [None] and [Optional] values as JSON *)
Definition json_of_option {A} (f : A → json) (o : option A) : json :=
  match o with
  | Some a => f a
  | None => JNull
  end.

(** ** Outcomes and the state-and-exception monad *)

Inductive exn :=
  | JSONDecodeError
  | FileNotFoundError
  | TypeError
  | OverflowError.

Inductive outcome (A : Type) :=
  | Returns (a : A)
  | Raises (e : exn).
Arguments Returns {A} a.
Arguments Raises {A} e.

Definition M (S A : Type) : Type := S → outcome A * S.

Global Instance M_ret {S} : MRet (M S) := λ A a s, (Returns a, s).

Global Instance M_bind {S} : MBind (M S) := λ A B f m s,
  match m s with
  | (Returns a, s') => f a s'
  | (Raises e, s') => (Raises e, s')
  end.

Definition raise {S A} (e : exn) : M S A := λ s, (Raises e, s).
Definition gets {S A} (f : S → A) : M S A := λ s, (Returns (f s), s).
Definition modify {S} (f : S → S) : M S unit := λ s, (Returns tt, f s).
Definition lift_outcome {S A} (o : outcome A) : M S A := λ s, (o, s).

(** ** Python arithmetic on JSON numbers: [a + b] *)

(** [float(z)]: the nearest binary64 value, [OverflowError] when there is
    none. *)
Definition float_of_int (z : Z) : outcome float :=
  let f := SF2Prim (binary_normalize prec emax z 0 false) in
  if is_infinity f then Raises OverflowError else Returns f.

Inductive number :=
  | NInt (z : Z)
  | NFloat (f : float).

Definition as_number (j : json) : option number :=
  match j with
  | JInt z => Some (NInt z)
  | JBool b => Some (NInt (Z.b2z b))
  | JFloat f => Some (NFloat f)
  | _ => None
  end.

Definition py_add (a b : json) : outcome json :=
  match as_number a, as_number b with
  | Some (NInt x), Some (NInt y) => Returns (JInt (x + y))
  | Some (NFloat x), Some (NFloat y) => Returns (JFloat (x + y))
  | Some (NInt x), Some (NFloat y) =>
      match float_of_int x with
      | Returns x' => Returns (JFloat (x' + y))
      | Raises e => Raises e
      end
  | Some (NFloat x), Some (NInt y) =>
      match float_of_int y with
      | Returns y' => Returns (JFloat (x + y'))
      | Raises e => Raises e
      end
  | _, _ => Raises TypeError
  end.

(** ** The state directory and the clock *)

(** A file name of [STATE_DIR], as [(stem, suffix)]. *)
Abbreviation path := (string * string)%type.

(** [path.with_suffix(s)] *)
Definition with_suffix (p : path) (s : string) : path := (p.1, s).

(** What [read_text] followed by [json.loads] finds in a file: a JSON object,
    or text that [json.loads] rejects (an empty or partly written file
    included). A file whose text is valid JSON but not an object (a list, a
    number) is outside the model: every state file the two programs write is
    an object. *)
Inductive contents :=
  | Document (d : dict)
  | Malformed.

Record file := File { content : contents; st_mtime : nat }.

(** A process as [psutil.process_iter] reports it. *)
Record process := Process {
  p_pid : Z;
  p_cmdline : list string;
  p_create_time : nat
}.

Record world := World {
  files : gmap path file;            (* the entries of STATE_DIR *)
  time : nat;                        (* the current instant *)
  psutil : option (list process);    (* None: the module cannot be imported *)
  ps_aux : list string               (* the lines printed by `ps aux` *)
}.

Definition set_files (f : gmap path file → gmap path file) (σ : world) : world :=
  World (f (files σ)) (time σ) (psutil σ) (ps_aux σ).

Definition tick (σ : world) : world :=
  World (files σ) (S (time σ)) (psutil σ) (ps_aux σ).

(** [json.loads(p.read_text())] on the contents of a file *)
Definition json_loads (c : contents) : outcome dict :=
  match c with
  | Document d => Returns d
  | Malformed => Raises JSONDecodeError
  end.

(** [open(p, 'w')]: the file exists and is empty. *)
Definition open_w (p : path) (σ : world) : world :=
  set_files (insert p (File Malformed (time σ))) σ.

(** The last [write] of the text of [d] to the file opened at [p]. *)
Definition write_all (p : path) (d : dict) (σ : world) : world :=
  set_files (insert p (File (Document d) (time σ))) σ.

(** [p.write_text(json.dumps(d))] *)
Definition write_text (p : path) (d : dict) (σ : world) : world :=
  write_all p d (open_w p σ).

(** [src.replace(dst)]: one atomic rename. *)
Definition replace (src dst : path) (σ : world) : world :=
  match files σ !! src with
  | Some f => set_files (λ fs, <[dst := f]> (delete src fs)) σ
  | None => σ
  end.

(** [p.exists()] *)
Definition path_exists (p : path) (σ : world) : bool :=
  match files σ !! p with
  | Some _ => true
  | None => false
  end.

(** [json.loads(p.read_text())] *)
Definition read_json (p : path) (σ : world) : outcome dict :=
  match files σ !! p with
  | Some f => json_loads (content f)
  | None => Raises FileNotFoundError
  end.

(** ** trading-dashboard/bot_state.py *)

Record BotStateWriter := Writer {
  bot_id : string;
  bot_name : string;
  state_file : path;
  _default_state : dict
}.

Definition with_default_state (d : dict) (self : BotStateWriter) : BotStateWriter :=
  Writer (bot_id self) (bot_name self) (state_file self) d.

(** Methods run on the writer object and the world. *)
Abbreviation W := (M (BotStateWriter * world)).

Section Model.

(** [datetime.fromtimestamp(t, timezone.utc).isoformat()]: how an instant is
    printed. *)
Context (isoformat : nat → string).

(** [datetime.now(timezone.utc).isoformat()] *)
Definition datetime_now (σ : world) : string * world :=
  (isoformat (time σ), tick σ).

Definition in_world {A} (f : world → A * world) : W A := λ s,
  let '(a, σ') := f s.2 in (Returns a, (s.1, σ')).

Definition do_world (f : world → world) : W unit := λ s,
  (Returns tt, (s.1, f s.2)).

Definition try_world {A} (f : world → outcome A) : W A := λ s, (f s.2, s).

Definition set_default_state (d : dict) : W unit :=
  modify (λ s, (with_default_state d s.1, s.2)).

(** The file name of the state file of [bot_id]: [STATE_DIR / f"{bot_id}.json"] *)
Definition state_file_of (bot_id : string) : path := (bot_id, ".json").

(** [BotStateWriter._write]: returns [state] as the assignment to
    ["last_update"] leaves it, because the caller's dictionary is the one
    that is modified. *)
Definition _write (state : dict) : W dict :=
  self ← gets fst;
  let temp_file := with_suffix (state_file self) ".tmp" in
  now ← in_world datetime_now;
  let state := <["last_update" := JStr now]> state in
  do_world (write_text temp_file state);;
  do_world (replace temp_file (state_file self));;
  mret state.

(** The states of the world that [_write] goes through, one per system call:
    the clock is read, the temporary file is opened, its text is complete,
    it is renamed. A writer that is killed leaves the world in one of them. *)
Definition _write_trace (self : BotStateWriter) (state : dict) (σ : world) : list world :=
  let temp_file := with_suffix (state_file self) ".tmp" in
  let '(now, σ1) := datetime_now σ in
  let state := <["last_update" := JStr now]> state in
  let σ2 := open_w temp_file σ1 in
  let σ3 := write_all temp_file state σ2 in
  let σ4 := replace temp_file (state_file self) σ3 in
  [σ; σ1; σ2; σ3; σ4].

Definition default_state (bot_id bot_name : string) : dict :=
  <["bot_id" := JStr bot_id]> $
  <["bot_name" := JStr bot_name]> $
  <["status" := JStr "initializing"]> $
  <["status_color" := JStr "yellow"]> $
  <["pnl_total" := JFloat 0.0]> $
  <["pnl_24h" := JFloat 0.0]> $
  <["trades_total" := JInt 0]> $
  <["trades_24h" := JInt 0]> $
  <["position" := JNull]> $
  <["last_update" := JNull]> $
  <["last_error" := JNull]> $
  <["uptime_seconds" := JInt 0]> $
  <["version" := JStr "1.0.0"]> ∅.

(** [BotStateWriter.__init__]: the constructor returns the new object. The
    dictionary handed to [_write] is [_default_state] itself, so the stamp
    lands in it. *)
Definition __init__ (bot_id : string) (bot_name : option string) (σ : world)
    : outcome BotStateWriter * world :=
  let bot_name :=
    match bot_name with
    | Some n => if decide (n = "") then bot_id else n
    | None => bot_id
    end in
  let self := Writer bot_id bot_name (state_file_of bot_id)
                (default_state bot_id bot_name) in
  if path_exists (state_file self) σ then (Returns self, σ)
  else
    match _write (_default_state self) (self, σ) with
    | (Returns state, (self, σ)) => (Returns (with_default_state state self), σ)
    | (Raises e, (_, σ)) => (Raises e, σ)
    end.

Definition color_map : gmap string string :=
  <["running" := "green"]> $
  <["active" := "green"]> $
  <["initializing" := "yellow"]> $
  <["paused" := "yellow"]> $
  <["stopped" := "red"]> $
  <["error" := "red"]> $
  <["offline" := "gray"]> ∅.

(** [color_map.get(status, "yellow")]: a list or an object cannot be hashed. *)
Definition color_map_get (status : json) : outcome string :=
  match status with
  | JStr s => Returns (default "yellow" (color_map !! s))
  | JArr _ | JObj _ => Raises TypeError
  | _ => Returns "yellow"
  end.

(** [BotStateWriter.update]; [d2 ∪ d1] is [d1.update(d2)]. *)
Definition update (updates : dict) : W dict :=
  self ← gets fst;
  let current := _default_state self in
  present ← gets (λ s, path_exists (state_file self) s.2);
  current ←
    (if present : bool then
       on_disk ← try_world (read_json (state_file self));
       mret (on_disk ∪ current)
     else mret current);
  let current := updates ∪ current in
  let status := dict_get current "status" (JStr "unknown") in
  color ← lift_outcome (color_map_get status);
  let current := <["status_color" := JStr color]> current in
  _write current.

Definition set_running (extra_fields : option dict) : W dict :=
  let updates : dict := {["status" := JStr "running"]} in
  let updates :=
    match extra_fields with
    | Some extra => if decide (extra = ∅) then updates else extra ∪ updates
    | None => updates
    end in
  update updates.

Definition set_error (error_message : string) : W dict :=
  update (<["status" := JStr "error"]> {["last_error" := JStr error_message]}).

Definition set_paused : W dict := update {["status" := JStr "paused"]}.

Definition set_stopped : W dict := update {["status" := JStr "stopped"]}.

(** [BotStateWriter.record_trade]. When the state file is absent [current] is
    the object [_default_state] and not a copy of it, so every assignment to
    [current] is an assignment to [_default_state]; [assign] does it. *)
Definition record_trade (pnl : float) (side : string) : W dict :=
  self ← gets fst;
  present ← gets (λ s, path_exists (state_file self) s.2);
  current ←
    (if present : bool then try_world (read_json (state_file self))
     else mret (_default_state self));
  let assign (d : dict) : W unit :=
    if present : bool then mret tt else set_default_state d in
  n ← lift_outcome (py_add (dict_get current "trades_total" (JInt 0)) (JInt 1));
  let current := <["trades_total" := n]> current in
  assign current;;
  n ← lift_outcome (py_add (dict_get current "trades_24h" (JInt 0)) (JInt 1));
  let current := <["trades_24h" := n]> current in
  assign current;;
  x ← lift_outcome (py_add (dict_get current "pnl_total" (JInt 0)) (JFloat pnl));
  let current := <["pnl_total" := x]> current in
  assign current;;
  x ← lift_outcome (py_add (dict_get current "pnl_24h" (JInt 0)) (JFloat pnl));
  let current := <["pnl_24h" := x]> current in
  assign current;;
  now ← in_world datetime_now;
  let last_trade : dict :=
    <["time" := JStr now]> $ <["pnl" := JFloat pnl]> {["side" := JStr side]} in
  let current := <["last_trade" := JObj last_trade]> current in
  assign current;;
  current ← _write current;
  assign current;;
  mret current.

Definition update_position (side : option string) (size : float)
    (entry_price : option float) : W dict :=
  position ←
    match side return W json with
    | None => mret JNull
    | Some side =>
        now ← in_world datetime_now;
        mret (JObj (<["side" := JStr side]> $
                    <["size" := JFloat size]> $
                    <["entry_price" := json_of_option JFloat entry_price]>
                    {["opened_at" := JStr now]}))
    end;
  update {["position" := position]}.

Definition get_state : W dict :=
  self ← gets fst;
  present ← gets (λ s, path_exists (state_file self) s.2);
  if present : bool then try_world (read_json (state_file self))
  else mret (_default_state self).

(** ** system-health-monitor/reconcile_state.py *)

(** The entry of a process in the process map. *)
Record proc_state := ProcState {
  ps_pid : option Z;
  ps_running : bool;
  ps_started_at : option string;
  ps_cmdline : string
}.

(** The entry of a state file in the file map. *)
Record file_state := FileState {
  fs_status : json;
  fs_last_update : json;
  fs_file_mtime : string
}.

Record mismatch := Mismatch {
  m_bot_id : string;
  m_issue : string;
  m_process : option proc_state;
  m_file_state : option file_state
}.

Record report := Report {
  timestamp : string;
  processes_found : nat;
  state_files_found : nat;
  mismatches : list mismatch;
  fixed : list string;
  healthy : bool
}.

(** The guard of the third branch of [_extract_bot_id]. *)
Definition directional_bot (cmdline : string) : bool :=
  let cmdline_lower := lower cmdline in
  str_in "bot_v1" cmdline
  || (str_in "python" cmdline_lower
      && existsb (λ x, str_in x cmdline_lower) ["long"; "short"]).

(** [StateReconciler._extract_bot_id] *)
Definition _extract_bot_id (cmdline : string) : option string :=
  let cmdline_lower := lower cmdline in
  if str_in "mm_optimized_15m" cmdline then Some "mm_15m"
  else if str_in "mm_optimized_1h" cmdline then Some "mm_1h"
  else if directional_bot cmdline then
    if str_in "btc" cmdline_lower then
      if str_in "long" cmdline_lower then Some "btc_long_v1"
      else if str_in "short" cmdline_lower then Some "btc_short_v1"
      else None
    else if str_in "doge" cmdline_lower then
      if str_in "long" cmdline_lower then Some "doge_long_v1"
      else if str_in "short" cmdline_lower then Some "doge_short_v1"
      else None
    else None
  else if str_in "hummingbot" cmdline_lower then Some "hummingbot"
  else None.

(** [StateReconciler.get_process_states]: with [psutil] a later process of
    the same bot replaces an earlier one; in the fallback the first line
    wins. *)
Definition get_process_states (σ : world) : gmap string proc_state :=
  match psutil σ with
  | Some procs =>
      foldl (λ (states : gmap string proc_state) proc,
               match p_cmdline proc with
               | [] => states
               | cmdline =>
                   let cmd_str := join " " cmdline in
                   match _extract_bot_id cmd_str with
                   | Some bot_id =>
                       <[bot_id := ProcState (Some (p_pid proc)) true
                                     (Some (isoformat (p_create_time proc)))
                                     (take_chars 200 cmd_str)]> states
                   | None => states
                   end
               end) ∅ procs
  | None =>
      foldl (λ (states : gmap string proc_state) line,
               match _extract_bot_id line with
               | Some bot_id =>
                   match states !! bot_id with
                   | None =>
                       <[bot_id := ProcState None true None
                                     (take_chars 200 line)]> states
                   | Some _ => states
                   end
               | None => states
               end) ∅ (ps_aux σ)
  end.

(** The body of the loop of [get_file_states], on one directory entry. *)
Definition scan_state_file (states : gmap string file_state) (entry : path * file)
    : gmap string file_state :=
  let '((stem, suffix), f) := entry in
  if decide (suffix = ".json") then
    match json_loads (content f) with
    | Returns data =>
        <[stem := FileState (dict_get data "status" (JStr "unknown"))
                    (dict_get data "last_update" JNull)
                    (isoformat (st_mtime f))]> states
    | Raises _ => states
    end
  else states.

(** [StateReconciler.get_file_states]: [STATE_DIR.glob("*.json")] *)
Definition get_file_states (σ : world) : gmap string file_state :=
  foldl scan_state_file ∅ (map_to_list (files σ)).

(** The dictionary [state] that [_create_state_file] builds. *)
Definition synthesized_state (bot_id : string) (proc : proc_state) (now : string) : dict :=
  <["bot_id" := JStr bot_id]> $
  <["bot_name" := JStr (title (replace_char "_" " " bot_id))]> $
  <["status" := JStr "running"]> $
  <["status_color" := JStr "green"]> $
  <["pid" := json_of_option JInt (ps_pid proc)]> $
  <["started_at" := json_of_option JStr (ps_started_at proc)]> $
  <["last_update" := JStr now]> $
  <["reconciled" := JBool true]> ∅.

(** [StateReconciler._create_state_file] *)
Definition _create_state_file (bot_id : string) (proc : proc_state) (σ : world) : world :=
  let state_file := state_file_of bot_id in
  let '(now, σ) := datetime_now σ in
  let state := synthesized_state bot_id proc now in
  write_text state_file state σ.

(** [StateReconciler._update_state_to_stopped] *)
Definition _update_state_to_stopped (bot_id : string) (σ : world) : world :=
  let state_file := state_file_of bot_id in
  if path_exists state_file σ then
    match read_json state_file σ with
    | Returns state =>
        let state := <["status" := JStr "stopped"]> state in
        let state := <["status_color" := JStr "red"]> state in
        let '(now, σ) := datetime_now σ in
        let state := <["last_update" := JStr now]> state in
        let state := <["reconciled" := JBool true]> state in
        write_text state_file state σ
    | Raises _ => σ
    end
  else σ.

Definition add_mismatch (m : mismatch) (r : report) : report :=
  Report (timestamp r) (processes_found r) (state_files_found r)
         (mismatches r ++ [m]) (fixed r) false.

Definition add_fixed (bot_id : string) (r : report) : report :=
  Report (timestamp r) (processes_found r) (state_files_found r)
         (mismatches r) (fixed r ++ [bot_id]) (healthy r).

(** [file_state['status'] in ['running', 'active']] *)
Definition says_running (fs : file_state) : bool :=
  match fs_status fs with
  | JStr s => bool_decide (s = "running") || bool_decide (s = "active")
  | _ => false
  end.

(** The body of the first loop of [reconcile]. *)
Definition check_process (auto_fix : bool) (file_states : gmap string file_state)
    (acc : report * world) (entry : string * proc_state) : report * world :=
  let '(report, σ) := acc in
  let '(bot_id, proc) := entry in
  match file_states !! bot_id with
  | None =>
      let report :=
        add_mismatch (Mismatch bot_id "running_but_no_state_file" (Some proc) None)
                     report in
      if auto_fix then (add_fixed bot_id report, _create_state_file bot_id proc σ)
      else (report, σ)
  | Some _ => (report, σ)
  end.

(** The body of the second loop of [reconcile]. *)
Definition check_file (auto_fix : bool) (process_states : gmap string proc_state)
    (acc : report * world) (entry : string * file_state) : report * world :=
  let '(report, σ) := acc in
  let '(bot_id, fs) := entry in
  match process_states !! bot_id with
  | None =>
      if says_running fs then
        let report :=
          add_mismatch (Mismatch bot_id "state_says_running_but_process_missing"
                                 None (Some fs)) report in
        if auto_fix then (add_fixed bot_id report, _update_state_to_stopped bot_id σ)
        else (report, σ)
      else (report, σ)
  | Some _ => (report, σ)
  end.

(** [StateReconciler.reconcile] from the point where the two maps are known. *)
Definition reconcile_with (auto_fix : bool)
    (process_states : gmap string proc_state)
    (file_states : gmap string file_state) (σ : world) : report * world :=
  let '(now, σ) := datetime_now σ in
  let report := Report now (size process_states) (size file_states) [] [] true in
  let acc := foldl (check_process auto_fix file_states) (report, σ)
                   (map_to_list process_states) in
  foldl (check_file auto_fix process_states) acc (map_to_list file_states).

(** [StateReconciler.reconcile] *)
Definition reconcile (auto_fix : bool) (σ : world) : report * world :=
  let process_states := get_process_states σ in
  let file_states := get_file_states σ in
  reconcile_with auto_fix process_states file_states σ.

End Model.

(** ** Module-level functions of trading-dashboard/bot_state.py *)

(** The body of the loop of [get_all_bot_states], on one directory entry. *)
Definition load_state_file (states : gmap string dict) (entry : path * file)
    : gmap string dict :=
  let '((stem, suffix), f) := entry in
  if decide (suffix = ".json") then
    match json_loads (content f) with
    | Returns data => <[stem := data]> states
    | Raises _ => states
    end
  else states.

(** [get_all_bot_states] *)
Definition get_all_bot_states (σ : world) : gmap string dict :=
  foldl load_state_file ∅ (map_to_list (files σ)).

(** [p.unlink()] *)
Definition unlink (p : path) (σ : world) : world := set_files (delete p) σ.

(** [clear_all_states]: every [*.json] entry of the directory is removed. *)
Definition clear_all_states (σ : world) : world :=
  foldl (λ σ (entry : path * file),
           if decide (entry.1.2 = ".json") then unlink entry.1 σ else σ)
        σ (map_to_list (files σ)).

(** ** The classification rules as a table

    A rule is a pattern on the command line and the bot id it stands for;
    [first_match] returns the id of the first rule whose pattern holds. *)

Definition rule : Type := (string → bool) * string.

Fixpoint first_match (rules : list rule) (cmdline : string) : option string :=
  match rules with
  | [] => None
  | (pattern, bot_id) :: rest =>
      if pattern cmdline then Some bot_id else first_match rest cmdline
  end.

(** The pattern of the long/short bots, spelled out: "bot_v1" in the command
    line as it is, or "python" together with "long" or "short" in the
    lower-cased command line. *)
Definition long_short_pattern (cmdline : string) : bool :=
  str_in "bot_v1" cmdline
  || (str_in "python" (lower cmdline)
      && (str_in "long" (lower cmdline) || str_in "short" (lower cmdline))).

Definition asset_rule (asset direction : string) (cmdline : string) : bool :=
  long_short_pattern cmdline
  && str_in asset (lower cmdline) && str_in direction (lower cmdline).

(** The fixed table of the classifier: one rule per bot id, in the order of
    the source, each with the substrings that identify the bot. *)
Definition classification_rules : list rule :=
  [ (str_in "mm_optimized_15m", "mm_15m");
    (str_in "mm_optimized_1h", "mm_1h");
    (asset_rule "btc" "long", "btc_long_v1");
    (asset_rule "btc" "short", "btc_short_v1");
    (asset_rule "doge" "long", "doge_long_v1");
    (asset_rule "doge" "short", "doge_short_v1");
    (λ cmdline, str_in "hummingbot" (lower cmdline), "hummingbot") ].

(** The command lines that contain "hummingbot", match the long/short
    pattern, and match no rule before the hummingbot rule. *)
Definition hummingbot_shadowed (cmdline : string) : bool :=
  let l := lower cmdline in
  negb (str_in "mm_optimized_15m" cmdline)
  && negb (str_in "mm_optimized_1h" cmdline)
  && long_short_pattern cmdline
  && negb ((str_in "btc" l || str_in "doge" l)
           && (str_in "long" l || str_in "short" l))
  && str_in "hummingbot" l.

(** ** Observations on reports, used to state the properties *)

(** The kinds of the mismatches a report lists for one bot, in order. *)
Definition issues_for (b : string) (r : report) : list string :=
  m_issue <$> filter (λ m, m_bot_id m = b) (mismatches r).

(** The mismatch, if any, that each loop of [reconcile] records for an entry. *)
Definition process_mismatch (file_states : gmap string file_state)
    (entry : string * proc_state) : option mismatch :=
  match file_states !! entry.1 with
  | None => Some (Mismatch entry.1 "running_but_no_state_file" (Some entry.2) None)
  | Some _ => None
  end.

Definition file_mismatch (process_states : gmap string proc_state)
    (entry : string * file_state) : option mismatch :=
  match process_states !! entry.1 with
  | None =>
      if says_running entry.2 then
        Some (Mismatch entry.1 "state_says_running_but_process_missing"
                       None (Some entry.2))
      else None
  | Some _ => None
  end.

(** The flag of a report and its list of mismatches agree. *)
Definition flag_agrees (acc : report * world) : Prop :=
  healthy acc.1 = true ↔ mismatches acc.1 = [].

(** A record whose colour is the one the mapping gives to its status. *)
Definition color_consistent (d : dict) : Prop :=
  ∃ c, color_map_get (dict_get d "status" (JStr "unknown")) = Returns c
       ∧ d !! "status_color" = Some (JStr c).

(** The file at [p] holds the complete document [d]. *)
Definition holds_document (σ : world) (p : path) (d : dict) : Prop :=
  ∃ mtime, files σ !! p = Some (File (Document d) mtime).

(** The entry of the file map that [get_file_states] makes of a file. *)
Definition summarise (isoformat : nat → string) (f : file) : option file_state :=
  match content f with
  | Document data =>
      Some (FileState (dict_get data "status" (JStr "unknown"))
                      (dict_get data "last_update" JNull)
                      (isoformat (st_mtime f)))
  | Malformed => None
  end.

(** The method [m] touches the state directory through one [_write] at most:
    when it returns, the files are those that some [_write] of the record it
    returns leaves; when it raises, the files are as they were. *)
Definition writes_once (isoformat : nat → string) (m : W dict) : Prop :=
  ∀ self σ,
    match m (self, σ) with
    | (Returns cur, (_, σ')) =>
        ∃ state self0 σ0,
          state_file self0 = state_file self ∧ files σ0 = files σ
          ∧ _write isoformat state (self0, σ0) = (Returns cur, (self0, σ'))
    | (Raises _, (_, σ')) => files σ' = files σ
    end.

(** Whenever the method [m] returns, the record it returns fits the colour
    mapping and is the document the state file holds. *)
Definition keeps_color_mapping (m : W dict) : Prop :=
  ∀ self σ cur self' σ',
    m (self, σ) = (Returns cur, (self', σ')) →
    color_consistent cur ∧ holds_document σ' (state_file self) cur.

(** The field [k] of the record that a computation returns. *)
Definition field_of (k : string) (o : outcome dict) : outcome (option json) :=
  match o with
  | Returns d => Returns (d !! k)
  | Raises e => Raises e
  end.

(** The bot ids that [_extract_bot_id] can return. *)
Definition bot_ids : list string :=
  ["mm_15m"; "mm_1h"; "btc_long_v1"; "btc_short_v1"; "doge_long_v1";
   "doge_short_v1"; "hummingbot"].

(** The record [update] and [get_state] start from: the default record, with
    the record on disk laid over it when there is one. *)
Definition loaded (self : BotStateWriter) (σ : world) : outcome dict :=
  match files σ !! state_file self with
  | None => Returns (_default_state self)
  | Some f =>
      match json_loads (content f) with
      | Returns d => Returns (d ∪ _default_state self)
      | Raises e => Raises e
      end
  end.

(** The world [_write] leaves when it is handed the already stamped [doc]. *)
Definition written (self : BotStateWriter) (doc : dict) (σ : world) : world :=
  replace (with_suffix (state_file self) ".tmp") (state_file self)
    (write_text (with_suffix (state_file self) ".tmp") doc (tick σ)).

(** The document that a file holds, if it holds one. *)
Definition document_of (f : file) : option dict :=
  match content f with
  | Document d => Some d
  | Malformed => None
  end.

(** What a method may do to the directory when it runs for the bot [b]:
    leave the returned record in the state file, no temporary file, and every
    other file as it was; or raise and leave every file as it was. *)
Definition touches_own_files_only (m : W dict) (self : BotStateWriter)
    (b : string) (σ : world) : Prop :=
  match m (self, σ) with
  | (Returns cur, (_, σ')) =>
      holds_document σ' (state_file_of b) cur
      ∧ files σ' !! (b, ".tmp") = None
      ∧ ∀ q, q ≠ state_file_of b → q ≠ (b, ".tmp") → files σ' !! q = files σ !! q
  | (Raises _, (_, σ')) => files σ' = files σ
  end.

(** The process-map entry of a process that [psutil] lists. *)
Definition psutil_entry (isoformat : nat → string) (p : process) : proc_state :=
  ProcState (Some (p_pid p)) true (Some (isoformat (p_create_time p)))
            (take_chars 200 (join " " (p_cmdline p))).

(** The process [p] is classified as the bot [b]. *)
Definition classified (b : string) (p : process) : Prop :=
  p_cmdline p ≠ [] ∧ _extract_bot_id (join " " (p_cmdline p)) = Some b.

(** ** Sample inputs *)

Definition sample_isoformat (t : nat) : string := "2026-11-03T00:00:" +:+ pretty t.

(** One market-maker process without a state file, and one state file that
    says running without a process. *)
Definition sample_world : world :=
  World {[ state_file_of "ghost" :=
             File (Document {["status" := JStr "running"]}) 0 ]}
        7 (Some [Process 4242 ["python3"; "mm_optimized_1h.py"] 3]) [].

Definition empty_world : world := World ∅ 0 None [].

Definition sample_writer : BotStateWriter :=
  Writer "ghost" "Ghost" (state_file_of "ghost") (default_state "ghost" "Ghost").

(** A complete record, and a world whose state file for "ghost" holds it. *)
Definition traded_record : dict :=
  <["trades_total" := JInt 50]> $
  <["trades_24h" := JInt 5]> $
  <["pnl_total" := JFloat 123.5]> $
  <["pnl_24h" := JFloat 12.25]> $
  default_state "ghost" "Ghost".

Definition traded_world : world :=
  World {[ state_file_of "ghost" := File (Document traded_record) 0 ]} 7 None [].

(** The record that the writer of "ghost" loads in [traded_world]. *)
Definition traded_loaded : dict := traded_record ∪ default_state "ghost" "Ghost".

(** A world whose state file for "ghost" does not parse. *)
Definition malformed_world : world :=
  World {[ state_file_of "ghost" := File Malformed 0 ]} 7 None [].

(** A world whose state file for "ghost" has a string for a counter. *)
Definition odd_record : dict := <["trades_total" := JStr "many"]> traded_record.

Definition odd_world : world :=
  World {[ state_file_of "ghost" := File (Document odd_record) 0 ]} 7 None [].

(** A world without [psutil], with two lines of the same market maker. *)
Definition fallback_world : world :=
  World ∅ 0 None ["kimi 101 python3 mm_optimized_1h.py";
                  "kimi 102 python3 mm_optimized_1h.py --paper"].

Definition sample_process : process :=
  Process 4242 ["python3"; "mm_optimized_1h.py"] 3.

(** A process map and a file map: "mm_1h" runs without a state file,
    "btc_long_v1" runs with one; "ghost" and "sleeper" have state files that
    say running and active and no process, "idle" and "resting" have state
    files that say stopped and paused and no process. *)
Definition sample_processes : gmap string proc_state :=
  <["mm_1h" := ProcState (Some 4242%Z) true (Some "at 3") "python3 mm_optimized_1h.py"]> $
  <["btc_long_v1" := ProcState (Some 4243%Z) true (Some "at 4") "python3 btc_long.py"]> ∅.

Definition sample_file_states : gmap string file_state :=
  <["btc_long_v1" := FileState (JStr "running") (JStr "at 5") "at 5"]> $
  <["ghost" := FileState (JStr "running") JNull "at 0"]> $
  <["sleeper" := FileState (JStr "active") JNull "at 1"]> $
  <["idle" := FileState (JStr "stopped") (JStr "at 2") "at 2"]> $
  <["resting" := FileState (JStr "paused") (JStr "at 6") "at 6"]> ∅.

(** ** Properties *)

Example extract_mm : _extract_bot_id "python3 mm_optimized_1h.py" = Some "mm_1h".
Proof. reflexivity. Qed.

Example extract_btc :
  _extract_bot_id "/usr/bin/Python BTC_Short_bot.py" = Some "btc_short_v1".
Proof. reflexivity. Qed.

Example title_bot_name : title (replace_char "_" " " "mm_15m") = "Mm 15M".
Proof. reflexivity. Qed.

(** *** Process classification *)

Lemma directional_bot_pattern cmdline :
  directional_bot cmdline = long_short_pattern cmdline.
Proof.
  unfold directional_bot, long_short_pattern. cbn [existsb].
  by rewrite orb_false_r.
Qed.

(** C8: the classifier returns the bot id of the first rule of the table
    whose pattern matches, and none when no rule matches, on every command
    line but those that contain "hummingbot", match the long/short pattern
    and match no earlier rule. On those the first matching rule is the
    hummingbot rule and the classifier returns none: the branch of the
    long/short bots is entered on its guard alone, and the hummingbot test
    that follows it is not reached. Such a command line is
    "python3 bin/hummingbot_quickstart.py --config long_grid.yml". *)
Theorem extract_bot_id_misses_hummingbot :
  (_extract_bot_id "python3 bin/hummingbot_quickstart.py --config long_grid.yml"
   = None
   ∧ first_match classification_rules
       "python3 bin/hummingbot_quickstart.py --config long_grid.yml"
     = Some "hummingbot")
  ∧ ∀ cmdline,
      _extract_bot_id cmdline
      = (if hummingbot_shadowed cmdline then None
         else first_match classification_rules cmdline)
      ∧ first_match classification_rules cmdline
        = (if hummingbot_shadowed cmdline then Some "hummingbot"
           else _extract_bot_id cmdline).
Proof.
  split; [split; reflexivity|]. intros cmdline.
  unfold _extract_bot_id, hummingbot_shadowed, classification_rules,
    first_match, asset_rule.
  rewrite directional_bot_pattern.
  destruct (str_in "mm_optimized_15m" cmdline); [done|].
  destruct (str_in "mm_optimized_1h" cmdline); [done|].
  destruct (long_short_pattern cmdline),
           (str_in "btc" (lower cmdline)),
           (str_in "long" (lower cmdline)),
           (str_in "short" (lower cmdline)),
           (str_in "doge" (lower cmdline)),
           (str_in "hummingbot" (lower cmdline)); by split.
Qed.

(** *** Reconciliation: what is reported *)

Section Reports.
Context (isoformat : nat → string).

Lemma foldl_invariant {A E} (P : A → Prop) (step : A → E → A) (l : list E) (a : A) :
  (∀ a e, P a → P (step a e)) → P a → P (foldl step a l).
Proof.
  intros Hstep. revert a. induction l as [|e l IH]; intros a Ha; [done|].
  cbn [foldl]. by apply IH, Hstep.
Qed.

Lemma omap_cons_app {A B} (g : A → option B) (x : A) (l : list A) :
  omap g (x :: l) = option_list (g x) ++ omap g l.
Proof. simpl. by destruct (g x). Qed.

(** A loop whose body appends at most one mismatch per entry. *)
Lemma foldl_mismatches {E} (step : report * world → E → report * world)
    (g : E → option mismatch) (l : list E) (acc : report * world) :
  (∀ acc e, mismatches (step acc e).1 = mismatches acc.1 ++ option_list (g e)) →
  mismatches (foldl step acc l).1 = mismatches acc.1 ++ omap g l.
Proof.
  intros Hstep. revert acc. induction l as [|e l IH]; intros acc.
  - simpl. by rewrite app_nil_r.
  - cbn [foldl]. by rewrite IH, Hstep, omap_cons_app, app_assoc.
Qed.

Lemma check_process_mismatches auto_fix fstates acc e :
  mismatches (check_process isoformat auto_fix fstates acc e).1
  = mismatches acc.1 ++ option_list (process_mismatch fstates e).
Proof.
  destruct acc as [r σ], e as [b p]. unfold check_process, process_mismatch.
  simpl. destruct (fstates !! b); simpl; [by rewrite app_nil_r|].
  by destruct auto_fix.
Qed.

Lemma check_file_mismatches auto_fix procs acc e :
  mismatches (check_file isoformat auto_fix procs acc e).1
  = mismatches acc.1 ++ option_list (file_mismatch procs e).
Proof.
  destruct acc as [r σ], e as [b fs]. unfold check_file, file_mismatch.
  simpl. destruct (procs !! b); simpl; [by rewrite app_nil_r|].
  destruct (says_running fs); simpl; [|by rewrite app_nil_r].
  by destruct auto_fix.
Qed.

Lemma reconcile_with_mismatches auto_fix procs fstates σ :
  mismatches (reconcile_with isoformat auto_fix procs fstates σ).1
  = omap (process_mismatch fstates) (map_to_list procs)
    ++ omap (file_mismatch procs) (map_to_list fstates).
Proof.
  unfold reconcile_with. cbn [datetime_now].
  rewrite (foldl_mismatches _ (file_mismatch procs))
    by apply check_file_mismatches.
  rewrite (foldl_mismatches _ (process_mismatch fstates))
    by apply check_process_mismatches.
  done.
Qed.

(** Filtering, by key, what a loop over the entries of a dictionary emits. *)
Lemma filter_omap_by_key {V} (g : string * V → option mismatch)
    (l : list (string * V)) (b : string) :
  (∀ e m, g e = Some m → m_bot_id m = e.1) →
  NoDup l.*1 →
  filter (λ m, m_bot_id m = b) (omap g l)
  = from_option (λ v, option_list (g (b, v))) [] ((list_to_map l : gmap string V) !! b).
Proof.
  intros Hg. induction l as [|[k v] l IH]; intros Hnd.
  - done.
  - apply NoDup_cons in Hnd as [Hk Hnd]. specialize (IH Hnd). simpl in Hk.
    rewrite omap_cons_app, filter_app, IH. cbn [list_to_map foldr].
    assert (filter (λ m, m_bot_id m = b) (option_list (g (k, v)))
            = if decide (k = b) then option_list (g (k, v)) else []) as ->.
    { destruct (g (k, v)) as [m|] eqn:Eg; simpl; [|by case_decide].
      apply Hg in Eg. simpl in Eg. subst k.
      case_decide.
      - by rewrite filter_cons_True.
      - by rewrite filter_cons_False. }
    destruct (decide (k = b)) as [->|Hne].
    + rewrite lookup_insert_eq. simpl.
      apply (not_elem_of_list_to_map_1 (M:=gmap string)) in Hk.
      rewrite Hk. simpl. by rewrite app_nil_r.
    + by rewrite lookup_insert_ne.
Qed.

Lemma filter_omap_map_to_list {V} (g : string * V → option mismatch)
    (m : gmap string V) (b : string) :
  (∀ e x, g e = Some x → m_bot_id x = e.1) →
  filter (λ x, m_bot_id x = b) (omap g (map_to_list m))
  = from_option (λ v, option_list (g (b, v))) [] (m !! b).
Proof.
  intros Hg. rewrite filter_omap_by_key; [|done|apply NoDup_fst_map_to_list].
  by rewrite list_to_map_to_list.
Qed.

Lemma process_mismatch_bot_id fstates e m :
  process_mismatch fstates e = Some m → m_bot_id m = e.1.
Proof. unfold process_mismatch. destruct (fstates !! e.1); naive_solver. Qed.

Lemma file_mismatch_bot_id procs e m :
  file_mismatch procs e = Some m → m_bot_id m = e.1.
Proof.
  unfold file_mismatch.
  destruct (procs !! e.1); [done|]. destruct (says_running e.2); naive_solver.
Qed.

(** The issues of one bot, by the test of the source. *)
Lemma reconcile_with_issues auto_fix procs fstates σ b :
  issues_for b (reconcile_with isoformat auto_fix procs fstates σ).1
  = match procs !! b, fstates !! b with
    | Some _, None => ["running_but_no_state_file"]
    | None, Some fs =>
        if says_running fs then ["state_says_running_but_process_missing"] else []
    | _, _ => []
    end.
Proof.
  unfold issues_for. rewrite reconcile_with_mismatches, filter_app, fmap_app.
  rewrite !filter_omap_map_to_list
    by eauto using process_mismatch_bot_id, file_mismatch_bot_id.
  unfold process_mismatch, file_mismatch. simpl.
  destruct (procs !! b) as [p|], (fstates !! b) as [fs|]; simpl; try done.
  by destruct (says_running fs).
Qed.

(** The test of the source holds of the statuses "running" and "active" and
    of no other value. *)
Lemma says_running_iff fs :
  says_running fs = true
  ↔ fs_status fs = JStr "running" ∨ fs_status fs = JStr "active".
Proof.
  unfold says_running. destruct (fs_status fs) as [| | | |s| |]; simpl;
    try (split; [done|by intros [|]]).
  rewrite orb_true_iff, !bool_decide_eq_true.
  split; (intros [H|H]; [left|right]); congruence.
Qed.

(** C1: for every process map and file map, and for every bot id, the
    mismatches that the report lists for that bot are: exactly one
    running_but_no_state_file when the bot is in the process map only;
    exactly one state_says_running_but_process_missing when it is in the file
    map only and its status is the string "running" or the string "active";
    none when it is in the file map only with any other status, when it is in
    both maps, and when it is in neither. *)
Theorem reconcile_classification auto_fix
    (procs : gmap string proc_state) (fstates : gmap string file_state) σ b :
  let issues := issues_for b (reconcile_with isoformat auto_fix procs fstates σ).1 in
  (∀ p, procs !! b = Some p → fstates !! b = None →
        issues = ["running_but_no_state_file"])
  ∧ (∀ fs, procs !! b = None → fstates !! b = Some fs →
           fs_status fs = JStr "running" ∨ fs_status fs = JStr "active" →
           issues = ["state_says_running_but_process_missing"])
  ∧ (∀ fs, procs !! b = None → fstates !! b = Some fs →
           fs_status fs ≠ JStr "running" → fs_status fs ≠ JStr "active" →
           issues = [])
  ∧ (∀ p fs, procs !! b = Some p → fstates !! b = Some fs → issues = [])
  ∧ (procs !! b = None → fstates !! b = None → issues = []).
Proof.
  intros issues. unfold issues. rewrite reconcile_with_issues.
  split; [by intros p -> ->|].
  split.
  { intros fs -> -> Hs. apply says_running_iff in Hs. by rewrite Hs. }
  split.
  { intros fs -> -> H1 H2. destruct (says_running fs) eqn:Hs; [|done].
    apply says_running_iff in Hs. by destruct Hs. }
  split; [by intros p fs -> ->|by intros -> ->].
Qed.

Lemma check_process_flag auto_fix fstates acc e :
  flag_agrees acc → flag_agrees (check_process isoformat auto_fix fstates acc e).
Proof.
  destruct acc as [r σ], e as [b p]. unfold flag_agrees, check_process. simpl.
  destruct (fstates !! b); [done|].
  intros _. destruct auto_fix; simpl; split; try done; by intros []%app_eq_nil.
Qed.

Lemma check_file_flag auto_fix procs acc e :
  flag_agrees acc → flag_agrees (check_file isoformat auto_fix procs acc e).
Proof.
  destruct acc as [r σ], e as [b fs]. unfold flag_agrees, check_file. simpl.
  destruct (procs !! b); [done|]. destruct (says_running fs); [|done].
  intros _. destruct auto_fix; simpl; split; try done; by intros []%app_eq_nil.
Qed.

Lemma reconcile_with_healthy auto_fix procs fstates σ :
  let r := (reconcile_with isoformat auto_fix procs fstates σ).1 in
  healthy r = true ↔ mismatches r = [].
Proof.
  unfold reconcile_with. cbn [datetime_now].
  apply (foldl_invariant flag_agrees); [intros; by apply check_file_flag|].
  apply (foldl_invariant flag_agrees); [intros; by apply check_process_flag|].
  done.
Qed.

(** C3: in every run, with or without auto-fix, the report is healthy if and
    only if it lists no mismatch; the mismatches and the flag of a run are
    the same whether or not the run performs fixes. *)
Theorem reconcile_healthy_iff_no_mismatch
    (procs : gmap string proc_state) (fstates : gmap string file_state) σ :
  (∀ auto_fix,
     let r := (reconcile_with isoformat auto_fix procs fstates σ).1 in
     healthy r = true ↔ mismatches r = [])
  ∧ mismatches (reconcile_with isoformat true procs fstates σ).1
    = mismatches (reconcile_with isoformat false procs fstates σ).1
  ∧ healthy (reconcile_with isoformat true procs fstates σ).1
    = healthy (reconcile_with isoformat false procs fstates σ).1.
Proof.
  split; [intros a; apply reconcile_with_healthy|].
  assert (mismatches (reconcile_with isoformat true procs fstates σ).1
          = mismatches (reconcile_with isoformat false procs fstates σ).1) as Hm
    by (by rewrite !reconcile_with_mismatches).
  split; [done|].
  pose proof (reconcile_with_healthy true procs fstates σ) as Ht.
  pose proof (reconcile_with_healthy false procs fstates σ) as Hf.
  simpl in Ht, Hf. rewrite Hm in Ht.
  apply Bool.eq_true_iff_eq. by rewrite Ht, Hf.
Qed.

End Reports.

(** *** Reconciliation: what is repaired *)

Section Repairs.
Context (isoformat : nat → string).

Lemma foldl_invariant_elem {A E} (P : A → Prop) (step : A → E → A)
    (l : list E) (a : A) :
  (∀ a e, e ∈ l → P a → P (step a e)) → P a → P (foldl step a l).
Proof.
  revert a. induction l as [|e l IH]; intros a Hstep Ha; [done|].
  cbn [foldl]. apply IH.
  - intros a' e' He'. apply Hstep. by right.
  - apply Hstep; [by left|done].
Qed.

Lemma state_file_of_inj b1 b2 : state_file_of b1 = state_file_of b2 → b1 = b2.
Proof. unfold state_file_of. congruence. Qed.

Lemma create_state_file_files b p σ :
  files (_create_state_file isoformat b p σ)
  = <[state_file_of b :=
        File (Document (synthesized_state b p (isoformat (time σ)))) (S (time σ))]>
      (files σ).
Proof.
  unfold _create_state_file, write_text, write_all, open_w. simpl.
  by rewrite insert_insert_eq.
Qed.

Lemma update_state_to_stopped_document b d mtime σ :
  files σ !! state_file_of b = Some (File (Document d) mtime) →
  files (_update_state_to_stopped isoformat b σ)
  = <[state_file_of b :=
        File (Document (<["reconciled" := JBool true]> $
                        <["last_update" := JStr (isoformat (time σ))]> $
                        <["status_color" := JStr "red"]> $
                        <["status" := JStr "stopped"]> d)) (S (time σ))]>
      (files σ).
Proof.
  intros Hf. unfold _update_state_to_stopped, path_exists, read_json.
  rewrite Hf. simpl. unfold write_text, write_all, open_w. simpl.
  by rewrite insert_insert_eq.
Qed.

Lemma update_state_to_stopped_frame b q σ :
  q ≠ state_file_of b →
  files (_update_state_to_stopped isoformat b σ) !! q = files σ !! q.
Proof.
  intros Hq. unfold _update_state_to_stopped, path_exists, read_json.
  destruct (files σ !! state_file_of b) as [[[d|] mtime]|] eqn:Hf; simpl; try done.
  unfold write_text, write_all, open_w. simpl.
  by rewrite !lookup_insert_ne.
Qed.

(** Each step of the first loop writes at most the state file of its entry. *)
Lemma check_process_frame auto_fix fstates acc e q :
  q ≠ state_file_of e.1 →
  files (check_process isoformat auto_fix fstates acc e).2 !! q = files acc.2 !! q.
Proof.
  destruct acc as [r σ], e as [b p]. simpl. intros Hq. unfold check_process.
  destruct (fstates !! b); [done|]. destruct auto_fix; [|done]. cbn [fst snd].
  by rewrite create_state_file_files, lookup_insert_ne.
Qed.

Lemma check_file_frame auto_fix procs acc e q :
  q ≠ state_file_of e.1 →
  files (check_file isoformat auto_fix procs acc e).2 !! q = files acc.2 !! q.
Proof.
  destruct acc as [r σ], e as [b fs]. simpl. intros Hq. unfold check_file.
  destruct (procs !! b); [done|]. destruct (says_running fs); [|done].
  destruct auto_fix; [|done]. cbn [fst snd]. by apply update_state_to_stopped_frame.
Qed.

Lemma check_process_fixed auto_fix fstates acc e b :
  b ∈ fixed acc.1 → b ∈ fixed (check_process isoformat auto_fix fstates acc e).1.
Proof.
  destruct acc as [r σ], e as [k p]. simpl. unfold check_process.
  destruct (fstates !! k); [done|]. destruct auto_fix; [|done]. cbn [fst snd].
  intros ?. apply elem_of_app. by left.
Qed.

Lemma check_file_fixed auto_fix procs acc e b :
  b ∈ fixed acc.1 → b ∈ fixed (check_file isoformat auto_fix procs acc e).1.
Proof.
  destruct acc as [r σ], e as [k fs]. simpl. unfold check_file.
  destruct (procs !! k); [done|]. destruct (says_running fs); [|done].
  destruct auto_fix; [|done]. cbn [fst snd].
  intros ?. apply elem_of_app. by left.
Qed.

Lemma check_process_keeps_file auto_fix fstates b (l : list (string * proc_state)) acc :
  b ∉ l.*1 →
  files (foldl (check_process isoformat auto_fix fstates) acc l).2 !! state_file_of b
  = files acc.2 !! state_file_of b.
Proof.
  intros Hb.
  apply (foldl_invariant_elem
           (λ a, files a.2 !! state_file_of b = files acc.2 !! state_file_of b));
    [|done].
  intros a e He <-. apply check_process_frame.
  intros ->%state_file_of_inj. apply Hb, list_elem_of_fmap. by exists e.
Qed.

Lemma check_file_keeps_file auto_fix procs b (l : list (string * file_state)) acc :
  b ∉ l.*1 →
  files (foldl (check_file isoformat auto_fix procs) acc l).2 !! state_file_of b
  = files acc.2 !! state_file_of b.
Proof.
  intros Hb.
  apply (foldl_invariant_elem
           (λ a, files a.2 !! state_file_of b = files acc.2 !! state_file_of b));
    [|done].
  intros a e He <-. apply check_file_frame.
  intros ->%state_file_of_inj. apply Hb, list_elem_of_fmap. by exists e.
Qed.

Lemma check_process_keeps_fixed auto_fix fstates b l acc :
  b ∈ fixed acc.1 →
  b ∈ fixed (foldl (check_process isoformat auto_fix fstates) acc l).1.
Proof.
  apply (foldl_invariant (λ a, b ∈ fixed a.1)).
  intros; by apply check_process_fixed.
Qed.

Lemma check_file_keeps_fixed auto_fix procs b l acc :
  b ∈ fixed acc.1 →
  b ∈ fixed (foldl (check_file isoformat auto_fix procs) acc l).1.
Proof.
  apply (foldl_invariant (λ a, b ∈ fixed a.1)).
  intros; by apply check_file_fixed.
Qed.

(** The entries of a dictionary around the entry of one key. *)
Lemma map_to_list_split {V} (m : gmap string V) b v :
  m !! b = Some v →
  ∃ l1 l2, map_to_list m = l1 ++ (b, v) :: l2 ∧ (b ∉ l1.*1) ∧ (b ∉ l2.*1).
Proof.
  intros Hb. apply elem_of_map_to_list, list_elem_of_split in Hb as (l1 & l2 & Hl).
  exists l1, l2. split; [done|].
  pose proof (NoDup_fst_map_to_list m) as Hnd.
  rewrite Hl, fmap_app, fmap_cons in Hnd. simpl in Hnd.
  apply NoDup_app in Hnd as (_ & Hl1 & [Hl2 _]%NoDup_cons).
  split; [|done]. intros Hin. apply (Hl1 _ Hin). by left.
Qed.

Lemma not_in_map_to_list {V} (m : gmap string V) b :
  m !! b = None → b ∉ (map_to_list m).*1.
Proof.
  intros Hb [[k v] [-> Hin]]%list_elem_of_fmap.
  apply elem_of_map_to_list in Hin. simpl in Hb. congruence.
Qed.

(** In auto-fix mode a bot of the process map that the file map lacks gets
    the synthesized record, and is listed as fixed. *)
Lemma reconcile_with_creates procs fstates σ b p :
  procs !! b = Some p → fstates !! b = None →
  let out := reconcile_with isoformat true procs fstates σ in
  (∃ t, holds_document out.2 (state_file_of b)
          (synthesized_state b p (isoformat t)))
  ∧ b ∈ fixed out.1.
Proof.
  intros Hp Hf. unfold reconcile_with. cbn [datetime_now].
  destruct (map_to_list_split procs b p Hp) as (l1 & l2 & -> & Hl1 & Hl2).
  apply not_in_map_to_list in Hf as Hb.
  rewrite foldl_app. cbn [foldl].
  set (acc1 := foldl _ _ l1).
  assert (check_process isoformat true fstates acc1 (b, p)
          = (add_fixed b (add_mismatch
                            (Mismatch b "running_but_no_state_file" (Some p) None)
                            acc1.1),
             _create_state_file isoformat b p acc1.2)) as ->.
  { destruct acc1 as [r1 σ1]. unfold check_process. by rewrite Hf. }
  split.
  - exists (time acc1.2). unfold holds_document.
    rewrite check_file_keeps_file, check_process_keeps_file by done.
    cbn [snd]. rewrite create_state_file_files, lookup_insert_eq. by eexists.
  - apply check_file_keeps_fixed, check_process_keeps_fixed. cbn [fst].
    apply elem_of_app. right. by left.
Qed.

(** In auto-fix mode a bot of the file map whose status is running or active,
    whose state file holds a document and that the process map lacks has its
    record rewritten, and is listed as fixed. *)
Lemma reconcile_with_stops procs fstates σ b fs d mtime :
  procs !! b = None → fstates !! b = Some fs → says_running fs = true →
  files σ !! state_file_of b = Some (File (Document d) mtime) →
  let out := reconcile_with isoformat true procs fstates σ in
  (∃ t, holds_document out.2 (state_file_of b)
          (<["reconciled" := JBool true]> $
           <["last_update" := JStr (isoformat t)]> $
           <["status_color" := JStr "red"]> $
           <["status" := JStr "stopped"]> d))
  ∧ b ∈ fixed out.1.
Proof.
  intros Hp Hf Hrun Hd. unfold reconcile_with. cbn [datetime_now].
  destruct (map_to_list_split fstates b fs Hf) as (l1 & l2 & -> & Hl1 & Hl2).
  apply not_in_map_to_list in Hp as Hb.
  rewrite foldl_app. cbn [foldl].
  set (acc0 := foldl (check_process _ _ _) _ _).
  set (acc1 := foldl _ acc0 l1).
  assert (files acc1.2 !! state_file_of b = Some (File (Document d) mtime)) as Hd1.
  { unfold acc1, acc0.
    by rewrite check_file_keeps_file, check_process_keeps_file. }
  assert (check_file isoformat true procs acc1 (b, fs)
          = (add_fixed b (add_mismatch
                            (Mismatch b "state_says_running_but_process_missing"
                                      None (Some fs)) acc1.1),
             _update_state_to_stopped isoformat b acc1.2)) as ->.
  { destruct acc1 as [r1 σ1]. unfold check_file. by rewrite Hp, Hrun. }
  split.
  - exists (time acc1.2). unfold holds_document.
    rewrite check_file_keeps_file by done. cbn [snd].
    rewrite (update_state_to_stopped_document _ _ _ _ Hd1), lookup_insert_eq.
    by eexists.
  - apply check_file_keeps_fixed. cbn [fst]. apply elem_of_app. right. by left.
Qed.

(** The file map holds the summaries of the parseable [*.json] files. *)
Lemma scan_state_files_lookup (l : list (path * file)) acc b :
  NoDup l.*1 →
  foldl (scan_state_file isoformat) acc l !! b
  = match (list_to_map l : gmap path file) !! state_file_of b
          ≫= summarise isoformat with
    | Some s => Some s
    | None => acc !! b
    end.
Proof.
  revert acc. induction l as [|[[stem suffix] f] l IH]; intros acc Hnd; [done|].
  apply NoDup_cons in Hnd as [Hk Hnd]. simpl in Hk.
  cbn [foldl list_to_map foldr]. rewrite IH by done.
  destruct (decide ((stem, suffix) = state_file_of b)) as [Heq|Hne].
  - rewrite Heq in Hk |- *. rewrite lookup_insert_eq.
    apply (not_elem_of_list_to_map_1 (M:=gmap path)) in Hk. rewrite Hk. simpl.
    injection Heq as -> ->. unfold scan_state_file, summarise. simpl.
    destruct (content f); simpl; [by rewrite lookup_insert_eq|done].
  - rewrite lookup_insert_ne by done.
    destruct (list_to_map l !! state_file_of b ≫= summarise isoformat); [done|].
    unfold scan_state_file. case_decide as Hs; [|done].
    destruct (json_loads (content f)); [|done].
    rewrite lookup_insert_ne; [done|].
    intros ->. apply Hne. unfold state_file_of. by rewrite Hs.
Qed.

Lemma get_file_states_lookup σ b :
  get_file_states isoformat σ !! b
  = files σ !! state_file_of b ≫= summarise isoformat.
Proof.
  unfold get_file_states.
  rewrite scan_state_files_lookup by apply NoDup_fst_map_to_list.
  rewrite list_to_map_to_list, lookup_empty.
  by destruct (files σ !! state_file_of b ≫= summarise isoformat).
Qed.

Lemma no_state_file_no_entry σ b :
  files σ !! state_file_of b = None → get_file_states isoformat σ !! b = None.
Proof. intros Hf. by rewrite get_file_states_lookup, Hf. Qed.

Lemma synthesized_state_consistent b p now :
  color_consistent (synthesized_state b p now).
Proof. exists "green". by split. Qed.

Lemma stopped_state_consistent (d : dict) now :
  color_consistent (<["reconciled" := JBool true]> $
                    <["last_update" := JStr now]> $
                    <["status_color" := JStr "red"]> $
                    <["status" := JStr "stopped"]> d).
Proof.
  exists "red". unfold dict_get.
  rewrite !lookup_insert_ne, !lookup_insert_eq by done.
  rewrite !lookup_insert_ne, lookup_insert_eq by done. by split.
Qed.

(** C2: in auto-fix mode, a bot that runs and has no entry in the file map
    ends the run with a state file whose status is running and whose colour
    is green; a bot whose state file holds a document with status running or
    active and that no process matches ends the run with that document
    rewritten to status stopped and colour red, its other fields kept; both
    are in the fixed list of the report. *)
Theorem reconcile_auto_fix σ :
  let out := reconcile isoformat true σ in
  (∀ b p,
     get_process_states isoformat σ !! b = Some p →
     get_file_states isoformat σ !! b = None →
     ∃ d, holds_document out.2 (state_file_of b) d
          ∧ d !! "status" = Some (JStr "running")
          ∧ d !! "status_color" = Some (JStr "green")
          ∧ b ∈ fixed out.1)
  ∧ (∀ b d mtime,
       files σ !! state_file_of b = Some (File (Document d) mtime) →
       d !! "status" = Some (JStr "running") ∨ d !! "status" = Some (JStr "active") →
       get_process_states isoformat σ !! b = None →
       ∃ d', holds_document out.2 (state_file_of b) d'
             ∧ d' !! "status" = Some (JStr "stopped")
             ∧ d' !! "status_color" = Some (JStr "red")
             ∧ (∀ k, k ∉ ["status"; "status_color"; "last_update"; "reconciled"] →
                     d' !! k = d !! k)
             ∧ b ∈ fixed out.1).
Proof.
  unfold reconcile. split.
  - intros b p Hp Hf.
    destruct (reconcile_with_creates _ _ σ b p Hp Hf) as [[t Hdoc] Hfix].
    exists (synthesized_state b p (isoformat t)). by repeat split.
  - intros b d mtime Hd Hstatus Hp.
    assert (∃ fs, get_file_states isoformat σ !! b = Some fs
                  ∧ says_running fs = true) as (fs & Hf & Hrun).
    { rewrite get_file_states_lookup, Hd. simpl. eexists. split; [done|].
      unfold says_running, dict_get. simpl. by destruct Hstatus as [-> | ->]. }
    destruct (reconcile_with_stops _ _ σ b fs d mtime Hp Hf Hrun Hd)
      as [[t Hdoc] Hfix].
    eexists. split; [exact Hdoc|].
    split; [by rewrite !lookup_insert_ne, lookup_insert_eq by done|].
    split; [by rewrite !lookup_insert_ne, lookup_insert_eq by done|].
    split; [|done].
    intros k Hk. rewrite !lookup_insert_ne; [done|..];
      intros <-; apply Hk; repeat constructor.
Qed.

(** C10: the record that auto-fix synthesizes for a running process without
    a state file has exactly the fields bot_id, bot_name, status,
    status_color, pid, started_at, last_update and reconciled, whichever the
    bot and the process are; this is the record found in the state file at
    the end of a run in auto-fix mode. *)
Theorem synthesized_state_fields :
  (∀ b p σ,
     ∃ d, holds_document (_create_state_file isoformat b p σ) (state_file_of b) d
          ∧ dom d = list_to_set ["bot_id"; "bot_name"; "status"; "status_color";
                                 "pid"; "started_at"; "last_update"; "reconciled"])
  ∧ (∀ procs fstates σ b p,
       procs !! b = Some p → fstates !! b = None →
       ∃ d, holds_document (reconcile_with isoformat true procs fstates σ).2
                           (state_file_of b) d
            ∧ dom d = list_to_set ["bot_id"; "bot_name"; "status"; "status_color";
                                   "pid"; "started_at"; "last_update"; "reconciled"]).
Proof.
  assert (∀ b p now,
            dom (synthesized_state b p now)
            = list_to_set ["bot_id"; "bot_name"; "status"; "status_color";
                           "pid"; "started_at"; "last_update"; "reconciled"]) as Hdom.
  { intros. unfold synthesized_state. rewrite !dom_insert_L, dom_empty_L.
    simpl. done. }
  split.
  - intros b p σ. eexists. split; [|apply Hdom].
    unfold holds_document. rewrite create_state_file_files, lookup_insert_eq.
    by eexists.
  - intros procs fstates σ b p Hp Hf.
    destruct (reconcile_with_creates _ _ σ b p Hp Hf) as [[t Hdoc] _].
    eexists. split; [exact Hdoc|apply Hdom].
Qed.

(** Whatever a run changes in the state directory is a document whose colour
    fits its status. *)
Lemma reconcile_with_writes_consistent auto_fix procs fstates σ q :
  let σ' := (reconcile_with isoformat auto_fix procs fstates σ).2 in
  files σ' !! q = files σ !! q
  ∨ ∃ d, holds_document σ' q d ∧ color_consistent d.
Proof.
  unfold reconcile_with. cbn [datetime_now].
  set (P := λ a : report * world,
         files a.2 !! q = files σ !! q
         ∨ ∃ d, holds_document a.2 q d ∧ color_consistent d).
  apply (foldl_invariant P); [|apply (foldl_invariant P); [|by left]].
  - intros [r σ1] [b fs] HP. unfold P, check_file in *. cbn [snd] in *.
    destruct (procs !! b); [done|]. destruct (says_running fs); [|done].
    destruct auto_fix; [|done]. cbn [snd].
    destruct (decide (q = state_file_of b)) as [->|Hq].
    + destruct (files σ1 !! state_file_of b) as [[[d|] mtime]|] eqn:Hd.
      * right. eexists. split; [|apply stopped_state_consistent].
        unfold holds_document.
        rewrite (update_state_to_stopped_document _ _ _ _ Hd), lookup_insert_eq.
        by eexists.
      * unfold _update_state_to_stopped, path_exists, read_json.
        rewrite Hd. simpl. unfold holds_document in *. by rewrite Hd in *.
      * unfold _update_state_to_stopped, path_exists.
        rewrite Hd. unfold holds_document in *. by rewrite Hd in *.
    + unfold holds_document in *.
      by rewrite update_state_to_stopped_frame.
  - intros [r σ1] [b p] HP. unfold P, check_process in *. cbn [snd] in *.
    destruct (fstates !! b); [done|]. destruct auto_fix; [|done]. cbn [snd].
    unfold holds_document in *. rewrite create_state_file_files.
    destruct (decide (q = state_file_of b)) as [->|Hq].
    + right. eexists. rewrite lookup_insert_eq.
      split; [by eexists|apply synthesized_state_consistent].
    + by rewrite lookup_insert_ne.
Qed.

End Repairs.

(** *** The state writer *)

Section Writer.
Context (isoformat : nat → string).

(** Case analysis on the outcome of the next partial operation. *)
Ltac outcome_cases :=
  match goal with
  | |- context [color_map_get ?x] => destruct (color_map_get x) eqn:?
  | |- context [py_add ?x ?y] => destruct (py_add x y) eqn:?
  end.

(** Unfolds the monad of the methods, not the dictionaries. *)
Ltac run :=
  cbv [mbind mret M_bind M_ret gets modify raise lift_outcome in_world do_world
       try_world set_default_state datetime_now fst snd].

(** The dictionary [_write] leaves in the caller's hands, and the world it
    leaves behind. *)
Lemma write_returns self state σ :
  _write isoformat state (self, σ)
  = (Returns (<["last_update" := JStr (isoformat (time σ))]> state),
     (self,
      replace (with_suffix (state_file self) ".tmp") (state_file self)
        (write_text (with_suffix (state_file self) ".tmp")
           (<["last_update" := JStr (isoformat (time σ))]> state) (tick σ)))).
Proof. reflexivity. Qed.

Lemma write_text_lookup p d σ :
  files (write_text p d σ) !! p = Some (File (Document d) (time σ)).
Proof. unfold write_text, write_all, open_w. simpl. by rewrite lookup_insert_eq. Qed.

Lemma replace_lookup src dst f σ :
  files σ !! src = Some f → files (replace src dst σ) !! dst = Some f.
Proof. intros Hf. unfold replace. rewrite Hf. simpl. by rewrite lookup_insert_eq. Qed.

Lemma replace_source_gone src dst f σ :
  files σ !! src = Some f → src ≠ dst → files (replace src dst σ) !! src = None.
Proof.
  intros Hf Hne. unfold replace. rewrite Hf. simpl.
  by rewrite lookup_insert_ne, lookup_delete_eq.
Qed.

(** After [_write] the state file holds the stamped dictionary. *)
Lemma write_persists self state σ :
  holds_document (_write isoformat state (self, σ)).2.2 (state_file self)
                 (<["last_update" := JStr (isoformat (time σ))]> state).
Proof.
  rewrite write_returns. cbn [snd]. eexists.
  apply replace_lookup, write_text_lookup.
Qed.

(** C9: constructing a writer for a bot whose state file does not exist
    returns the writer and leaves a state file that holds the default record
    (status initializing, colour yellow, zero counters, null position and
    error) stamped with the instant of the construction. *)
Theorem init_creates_state_file b name σ :
  files σ !! state_file_of b = None →
  ∃ self σ' d,
    __init__ isoformat b name σ = (Returns self, σ')
    ∧ holds_document σ' (state_file_of b) d
    ∧ d = <["last_update" := JStr (isoformat (time σ))]>
            (default_state b (bot_name self))
    ∧ _default_state self = d
    ∧ d !! "bot_id" = Some (JStr b)
    ∧ d !! "status" = Some (JStr "initializing")
    ∧ d !! "status_color" = Some (JStr "yellow")
    ∧ d !! "pnl_total" = Some (JFloat 0) ∧ d !! "pnl_24h" = Some (JFloat 0)
    ∧ d !! "trades_total" = Some (JInt 0) ∧ d !! "trades_24h" = Some (JInt 0)
    ∧ d !! "position" = Some JNull ∧ d !! "last_error" = Some JNull
    ∧ d !! "last_update" = Some (JStr (isoformat (time σ))).
Proof.
  intros Hf. unfold __init__, path_exists. cbn [state_file]. rewrite Hf.
  rewrite write_returns. do 3 eexists. split; [reflexivity|].
  split; [|by repeat split].
  eexists. apply replace_lookup, write_text_lookup.
Qed.

Lemma write_trace_last self state σ :
  last (_write_trace isoformat self state σ)
  = Some (_write isoformat state (self, σ)).2.2.
Proof. reflexivity. Qed.

Lemma update_writes_once updates : writes_once isoformat (update isoformat updates).
Proof.
  intros self0 σ0. unfold update. run. unfold path_exists, read_json.
  destruct (files σ0 !! state_file self0) as [[[d|] mtime]|] eqn:Hf;
    run; rewrite ?Hf; cbn [json_loads content]; try done;
    (outcome_cases; [|done]);
    rewrite write_returns; eexists _, self0, σ0;
    (split; [done|]); (split; [done|]); apply write_returns.
Qed.

Lemma record_trade_writes_once pnl side :
  writes_once isoformat (record_trade isoformat pnl side).
Proof.
  intros self0 σ0. unfold record_trade. run. unfold path_exists, read_json.
  destruct (files σ0 !! state_file self0) as [[[d|] mtime]|] eqn:Hf;
    run; rewrite ?Hf; cbn [json_loads content]; try done;
    repeat (outcome_cases; [|done]);
    rewrite write_returns; eexists _, _, (tick σ0);
    (split; [|split; [|apply write_returns]]); done.
Qed.

(** C7: [_write] puts the complete document in a temporary file of the state
    directory, distinct from the state file, and then renames it over the
    state file; in every state of the world that [_write] goes through the
    state file is as it was before or holds the complete new document, and a
    reader of the state file gets the previous outcome or the new document.
    Every method that persists ([update], the derived setters and
    [record_trade]) does it through one [_write]. *)
Theorem write_is_atomic self b state σ :
  state_file self = state_file_of b →
  let target := state_file self in
  let temp := with_suffix target ".tmp" in
  let doc := <["last_update" := JStr (isoformat (time σ))]> state in
  let trace := _write_trace isoformat self state σ in
  temp ≠ target
  ∧ (∃ σ3, σ3 ∈ trace ∧ holds_document σ3 temp doc
           ∧ files σ3 !! target = files σ !! target)
  ∧ (∃ σ4, last trace = Some σ4
           ∧ _write isoformat state (self, σ) = (Returns doc, (self, σ4))
           ∧ holds_document σ4 target doc ∧ files σ4 !! temp = None)
  ∧ (∀ σ', σ' ∈ trace →
       (files σ' !! target = files σ !! target ∨ holds_document σ' target doc)
       ∧ (read_json target σ' = read_json target σ
          ∨ read_json target σ' = Returns doc))
  ∧ (∀ updates, writes_once isoformat (update isoformat updates))
  ∧ (∀ extra_fields, writes_once isoformat (set_running isoformat extra_fields))
  ∧ (∀ error_message, writes_once isoformat (set_error isoformat error_message))
  ∧ writes_once isoformat (set_paused isoformat)
  ∧ writes_once isoformat (set_stopped isoformat)
  ∧ (∀ side size entry_price,
       writes_once isoformat (update_position isoformat side size entry_price))
  ∧ (∀ pnl side, writes_once isoformat (record_trade isoformat pnl side)).
Proof.
  intros Hsf target temp doc trace.
  assert (temp ≠ target) as Hne.
  { unfold temp, target. rewrite Hsf. by intros [=]. }
  split; [done|].
  unfold trace, _write_trace. cbn [datetime_now]. fold target temp doc.
  set (σ1 := tick σ). set (σ2 := open_w temp σ1).
  set (σ3 := write_all temp doc σ2). set (σ4 := replace temp target σ3).
  assert (files σ2 !! target = files σ !! target) as H2.
  { unfold σ2, open_w. simpl. by rewrite lookup_insert_ne. }
  assert (files σ3 !! target = files σ !! target) as H3.
  { unfold σ3, write_all. simpl. by rewrite lookup_insert_ne. }
  assert (holds_document σ3 temp doc) as H3t.
  { eexists. unfold σ3, write_all. simpl. by rewrite lookup_insert_eq. }
  assert (holds_document σ4 target doc) as H4.
  { destruct H3t as [mtime H3t]. exists mtime. by apply replace_lookup. }
  assert (files σ4 !! temp = None) as H4t.
  { destruct H3t as [mtime H3t]. by eapply replace_source_gone. }
  split; [exists σ3; repeat split; [set_solver|done..]|].
  split; [by exists σ4|].
  split.
  - assert (∀ σ', files σ' !! target = files σ !! target
                  ∨ holds_document σ' target doc →
                  read_json target σ' = read_json target σ
                  ∨ read_json target σ' = Returns doc) as Hread.
    { intros σ' [Heq|[mtime Hdoc]]; unfold read_json.
      - left. by rewrite Heq.
      - right. by rewrite Hdoc. }
    intros σ' Hin.
    assert (files σ' !! target = files σ !! target
            ∨ holds_document σ' target doc) as Hfile; [|by auto].
    repeat (apply elem_of_cons in Hin as [->|Hin]); auto.
    by apply elem_of_nil in Hin.
  - split; [apply update_writes_once|].
    split; [intros; apply update_writes_once|].
    split; [intros; apply update_writes_once|].
    split; [apply update_writes_once|].
    split; [apply update_writes_once|].
    split; [|apply record_trade_writes_once].
    intros side size entry_price self0 σ0. unfold update_position.
    destruct side as [side|]; run; [|apply update_writes_once].
    match goal with
    | |- context [update isoformat ?u (self0, tick σ0)] =>
        pose proof (update_writes_once u self0 (tick σ0)) as Hw;
        destruct (update isoformat u (self0, tick σ0)) as [[cur|e] [self' σ']]
    end; [|exact Hw].
    destruct Hw as (st & self1 & σ1' & Hsf1 & Hfiles & Hw).
    by exists st, self1, σ1'.
Qed.

Lemma consistent_after_stamp (m : dict) c now :
  color_map_get (dict_get m "status" (JStr "unknown")) = Returns c →
  color_consistent (<["last_update" := JStr now]> (<["status_color" := JStr c]> m)).
Proof.
  intros Hc. exists c. unfold dict_get in *.
  rewrite !lookup_insert_ne by done. split; [done|].
  by rewrite lookup_insert_eq.
Qed.

Lemma update_keeps_color_mapping updates :
  keeps_color_mapping (update isoformat updates).
Proof.
  intros self σ cur self' σ'. unfold update. run. unfold path_exists, read_json.
  destruct (files σ !! state_file self) as [[[d|] mtime]|] eqn:Hf;
    run; rewrite ?Hf; cbn [json_loads content]; try done;
    (outcome_cases; [|done]); intros Hw;
    match type of Hw with
    | _write _ ?st _ = _ =>
        pose proof (write_persists self st σ) as Hdoc; rewrite Hw in Hdoc;
        rewrite write_returns in Hw; injection Hw as <- <- <-
    end;
    (split; [by apply consistent_after_stamp|exact Hdoc]).
Qed.

(** An update that sets a string status returns, when the state file is
    absent or holds a document, with the colour of that status. *)
Lemma update_string_status updates s self σ :
  (∀ mtime, files σ !! state_file self ≠ Some (File Malformed mtime)) →
  updates !! "status" = Some (JStr s) →
  ∃ cur σ',
    update isoformat updates (self, σ) = (Returns cur, (self, σ'))
    ∧ cur !! "status" = Some (JStr s)
    ∧ cur !! "status_color" = Some (JStr (default "yellow" (color_map !! s))).
Proof.
  intros Hok Hs. unfold update. run. unfold path_exists, read_json.
  destruct (files σ !! state_file self) as [[[d|] mtime]|] eqn:Hf;
    run; rewrite ?Hf; cbn [json_loads content];
    [|by destruct (Hok mtime)|];
    unfold dict_get; rewrite (lookup_union_Some_l _ _ _ _ Hs);
    cbn [default from_option id color_map_get];
    rewrite write_returns; do 2 eexists; (split; [done|]);
    rewrite !lookup_insert_ne, lookup_insert_eq by done;
    by rewrite (lookup_union_Some_l _ _ _ _ Hs).
Qed.

(** C5: the colour is a function of the status by the fixed table, yellow
    for any other string; an update that sets a string status returns, even
    if it also supplies a colour, with the colour of the table; whenever
    update or a derived setter returns, the record it returns and persists
    has the colour of its status; whatever a run of the reconciler changes in
    the state directory is a document with the colour of its status. *)
Theorem status_color_follows_status :
  (color_map_get (JStr "running") = Returns "green"
   ∧ color_map_get (JStr "active") = Returns "green"
   ∧ color_map_get (JStr "initializing") = Returns "yellow"
   ∧ color_map_get (JStr "paused") = Returns "yellow"
   ∧ color_map_get (JStr "stopped") = Returns "red"
   ∧ color_map_get (JStr "error") = Returns "red"
   ∧ color_map_get (JStr "offline") = Returns "gray"
   ∧ ∀ s, s ∉ ["running"; "active"; "initializing"; "paused"; "stopped";
                "error"; "offline"] →
          color_map_get (JStr s) = Returns "yellow")
  ∧ (∀ updates s self σ,
       (∀ mtime, files σ !! state_file self ≠ Some (File Malformed mtime)) →
       updates !! "status" = Some (JStr s) →
       ∃ cur σ' c,
         update isoformat updates (self, σ) = (Returns cur, (self, σ'))
         ∧ holds_document σ' (state_file self) cur
         ∧ cur !! "status" = Some (JStr s)
         ∧ color_map_get (JStr s) = Returns c
         ∧ cur !! "status_color" = Some (JStr c))
  ∧ (∀ updates, keeps_color_mapping (update isoformat updates))
  ∧ (∀ extra_fields, keeps_color_mapping (set_running isoformat extra_fields))
  ∧ (∀ error_message, keeps_color_mapping (set_error isoformat error_message))
  ∧ keeps_color_mapping (set_paused isoformat)
  ∧ keeps_color_mapping (set_stopped isoformat)
  ∧ (∀ side size entry_price,
       keeps_color_mapping (update_position isoformat side size entry_price))
  ∧ (∀ auto_fix procs fstates σ q,
       let σ' := (reconcile_with isoformat auto_fix procs fstates σ).2 in
       files σ' !! q = files σ !! q
       ∨ ∃ d, holds_document σ' q d ∧ color_consistent d).
Proof.
  split.
  { do 7 (split; [reflexivity|]). intros s Hs.
    repeat (apply not_elem_of_cons in Hs as [? Hs]).
    unfold color_map_get, color_map.
    by rewrite !lookup_insert_ne, lookup_empty by done. }
  split.
  { intros updates s self σ Hok Hs.
    destruct (update_string_status updates s self σ Hok Hs)
      as (cur & σ' & Hrun & Hstatus & Hcolor).
    exists cur, σ', (default "yellow" (color_map !! s)).
    split; [done|]. split; [|done].
    by apply (update_keeps_color_mapping updates self σ cur self σ'). }
  split; [apply update_keeps_color_mapping|].
  split; [intros; apply update_keeps_color_mapping|].
  split; [intros; apply update_keeps_color_mapping|].
  split; [apply update_keeps_color_mapping|].
  split; [apply update_keeps_color_mapping|].
  split; [|apply reconcile_with_writes_consistent].
  intros side size entry_price self σ cur self' σ'. unfold update_position.
  destruct side as [side|]; run.
  - intros Hrun.
    destruct (update_keeps_color_mapping _ _ _ _ _ _ Hrun) as [Hc Hdoc].
    by split.
  - apply update_keeps_color_mapping.
Qed.

(** [update] on a state file that holds a document. *)
Lemma update_on_document updates self σ d mtime c :
  files σ !! state_file self = Some (File (Document d) mtime) →
  color_map_get (dict_get (updates ∪ (d ∪ _default_state self)) "status"
                          (JStr "unknown")) = Returns c →
  update isoformat updates (self, σ)
  = _write isoformat (<["status_color" := JStr c]>
                        (updates ∪ (d ∪ _default_state self))) (self, σ).
Proof.
  intros Hf Hc. unfold update. run. unfold path_exists, read_json.
  rewrite Hf. run. rewrite Hf. cbn [json_loads content]. by rewrite Hc.
Qed.

(** C6 (amended): an update that supplies only a status returns, on an
    existing state record, a record in which every field other than status,
    status_color and last_update that the existing record contains has the
    value it had; a field that the existing record does not contain comes
    out with the value of the writer's default record. *)
Theorem update_status_keeps_fields s self σ d mtime :
  files σ !! state_file self = Some (File (Document d) mtime) →
  ∃ cur σ',
    update isoformat {["status" := JStr s]} (self, σ) = (Returns cur, (self, σ'))
    ∧ holds_document σ' (state_file self) cur
    ∧ (∀ k x, k ∉ ["status"; "status_color"; "last_update"] →
              d !! k = Some x → cur !! k = Some x)
    ∧ (∀ k, k ∉ ["status"; "status_color"; "last_update"] →
            d !! k = None → cur !! k = _default_state self !! k).
Proof.
  intros Hf.
  set (merged := ({["status" := JStr s]} ∪ (d ∪ _default_state self) : dict)).
  assert (merged !! "status" = Some (JStr s)) as Hs.
  { apply lookup_union_Some_l, lookup_singleton_eq. }
  rewrite (update_on_document _ _ _ d mtime (default "yellow" (color_map !! s)))
    by (done || (unfold dict_get; fold merged; by rewrite Hs)).
  fold merged.
  pose proof (write_persists self (<["status_color" :=
                JStr (default "yellow" (color_map !! s))]> merged) σ) as Hdoc.
  rewrite write_returns in *. cbn [snd] in Hdoc.
  do 2 eexists. split; [reflexivity|]. split; [exact Hdoc|].
  assert (∀ k, k ∉ ["status"; "status_color"; "last_update"] →
               (<["last_update" := JStr (isoformat (time σ))]> $
                <["status_color" := JStr (default "yellow" (color_map !! s))]>
                merged) !! k
               = (d ∪ _default_state self) !! k) as Hframe.
  { intros k Hk. repeat (apply not_elem_of_cons in Hk as [? Hk]).
    rewrite !lookup_insert_ne by done. unfold merged.
    by rewrite lookup_union_r by (by rewrite lookup_singleton_ne). }
  split.
  - intros k x Hk Hd. rewrite Hframe by done. by apply lookup_union_Some_l.
  - intros k Hk Hd. rewrite Hframe by done. by rewrite lookup_union_r.
Qed.

(** What [record_trade] does to a record that is on disk and has numbers of
    the types of the schema in its four counters. *)
Lemma record_trade_on_disk self σ d mtime (n m : Z) (x y pnl : float) side :
  files σ !! state_file self = Some (File (Document d) mtime) →
  d !! "trades_total" = Some (JInt n) → d !! "trades_24h" = Some (JInt m) →
  d !! "pnl_total" = Some (JFloat x) → d !! "pnl_24h" = Some (JFloat y) →
  ∃ σ',
    record_trade isoformat pnl side (self, σ)
    = (Returns (<["last_update" := JStr (isoformat (S (time σ)))]> $
                <["last_trade" :=
                    JObj (<["time" := JStr (isoformat (time σ))]> $
                          <["pnl" := JFloat pnl]> {["side" := JStr side]})]> $
                <["pnl_24h" := JFloat (y + pnl)]> $
                <["pnl_total" := JFloat (x + pnl)]> $
                <["trades_24h" := JInt (m + 1)]> $
                <["trades_total" := JInt (n + 1)]> d), (self, σ'))
    ∧ holds_document σ' (state_file self)
        (<["last_update" := JStr (isoformat (S (time σ)))]> $
         <["last_trade" :=
             JObj (<["time" := JStr (isoformat (time σ))]> $
                   <["pnl" := JFloat pnl]> {["side" := JStr side]})]> $
         <["pnl_24h" := JFloat (y + pnl)]> $
         <["pnl_total" := JFloat (x + pnl)]> $
         <["trades_24h" := JInt (m + 1)]> $
         <["trades_total" := JInt (n + 1)]> d).
Proof.
  intros Hf Htt Ht24 Hpt Hp24. unfold record_trade. run.
  unfold path_exists, read_json. rewrite Hf. run. rewrite Hf.
  cbn [json_loads content]. unfold dict_get.
  rewrite Htt. cbn [default from_option id py_add as_number].
  rewrite lookup_insert_ne, Ht24 by done.
  cbn [default from_option id py_add as_number].
  rewrite !lookup_insert_ne, Hpt by done.
  cbn [default from_option id py_add as_number].
  rewrite !lookup_insert_ne, Hp24 by done.
  cbn [default from_option id py_add as_number].
  match goal with
  | |- context [_write _ ?st (self, ?w)] =>
      pose proof (write_persists self st w) as Hdoc;
      rewrite (write_returns self st w) in *
  end.
  eexists. split; [reflexivity|exact Hdoc].
Qed.

(** The constructor on a bot without a state file. *)
Lemma init_fresh b name σ :
  files σ !! state_file_of b = None →
  ∃ self σ',
    __init__ isoformat b name σ = (Returns self, σ')
    ∧ state_file self = state_file_of b
    ∧ _default_state self
      = <["last_update" := JStr (isoformat (time σ))]>
          (default_state b (bot_name self))
    ∧ holds_document σ' (state_file_of b) (_default_state self).
Proof.
  intros Hf. unfold __init__, path_exists. cbn [state_file]. rewrite Hf.
  rewrite write_returns. do 2 eexists. split; [reflexivity|].
  do 2 (split; [reflexivity|]).
  eexists. apply replace_lookup, write_text_lookup.
Qed.

(** C4: on a record that is on disk, with integer trade counters and
    floating-point accumulators, [record_trade] returns and persists the
    record with both counters increased by one, the pnl added to both
    accumulators and last_trade set, every other field but last_update
    unchanged; two calls with pnl 5.0 and 3.0 on a freshly created bot give
    trades_total = 2 and pnl_total = 8.0. *)
Theorem record_trade_additive :
  (∀ self σ d mtime (n m : Z) (x y pnl : float) side,
     files σ !! state_file self = Some (File (Document d) mtime) →
     d !! "trades_total" = Some (JInt n) → d !! "trades_24h" = Some (JInt m) →
     d !! "pnl_total" = Some (JFloat x) → d !! "pnl_24h" = Some (JFloat y) →
     ∃ cur σ',
       record_trade isoformat pnl side (self, σ) = (Returns cur, (self, σ'))
       ∧ holds_document σ' (state_file self) cur
       ∧ cur !! "trades_total" = Some (JInt (n + 1))
       ∧ cur !! "trades_24h" = Some (JInt (m + 1))
       ∧ cur !! "pnl_total" = Some (JFloat (x + pnl))
       ∧ cur !! "pnl_24h" = Some (JFloat (y + pnl))
       ∧ cur !! "last_trade"
         = Some (JObj (<["time" := JStr (isoformat (time σ))]> $
                       <["pnl" := JFloat pnl]> {["side" := JStr side]}))
       ∧ ∀ k, k ∉ ["trades_total"; "trades_24h"; "pnl_total"; "pnl_24h";
                   "last_trade"; "last_update"] → cur !! k = d !! k)
  ∧ (∀ b name σ side1 side2,
       files σ !! state_file_of b = None →
       ∃ self σ1 cur1 s2 cur2 s3,
         __init__ isoformat b name σ = (Returns self, σ1)
         ∧ record_trade isoformat 5 side1 (self, σ1) = (Returns cur1, s2)
         ∧ record_trade isoformat 3 side2 s2 = (Returns cur2, s3)
         ∧ cur2 !! "trades_total" = Some (JInt 2)
         ∧ cur2 !! "pnl_total" = Some (JFloat 8)
         ∧ holds_document s3.2 (state_file_of b) cur2).
Proof.
  split.
  - intros self σ d mtime n m x y pnl side Hf Htt Ht24 Hpt Hp24.
    destruct (record_trade_on_disk self σ d mtime n m x y pnl side)
      as (σ' & Hrun & Hdoc); [done..|].
    eexists _, σ'. split; [exact Hrun|]. split; [exact Hdoc|].
    split; [by rewrite !lookup_insert_ne, lookup_insert_eq by done|].
    split; [by rewrite !lookup_insert_ne, lookup_insert_eq by done|].
    split; [by rewrite !lookup_insert_ne, lookup_insert_eq by done|].
    split; [by rewrite !lookup_insert_ne, lookup_insert_eq by done|].
    split; [by rewrite !lookup_insert_ne, lookup_insert_eq by done|].
    intros k Hk. repeat (apply not_elem_of_cons in Hk as [? Hk]).
    by rewrite !lookup_insert_ne by done.
  - intros b name σ side1 side2 Hf.
    destruct (init_fresh b name σ Hf) as (self & σ1 & Hinit & Hsf & Hdef & [mt1 Hd1]).
    rewrite <- Hsf in Hd1. rewrite Hdef in Hd1.
    destruct (record_trade_on_disk self σ1 _ mt1 0 0 0 0 5 side1 Hd1)
      as (σ2 & Hrun1 & [mt2 Hd2]); [done..|].
    destruct (record_trade_on_disk self σ2 _ mt2 (0 + 1) (0 + 1) (0 + 5) (0 + 5)
                3 side2 Hd2) as (σ3 & Hrun2 & Hd3); [done..|].
    eexists self, σ1, _, (self, σ2), _, (self, σ3).
    split; [exact Hinit|]. split; [exact Hrun1|]. split; [exact Hrun2|].
    split; [done|]. split; [done|]. by rewrite <- Hsf.
Qed.

End Writer.

(** *** The properties on the sample inputs *)

(** C1 on the sample maps: one bot for each case of the classification. *)
Lemma reconcile_classification_witness :
  let r := (reconcile_with sample_isoformat false sample_processes
              sample_file_states sample_world).1 in
  issues_for "mm_1h" r = ["running_but_no_state_file"]
  ∧ issues_for "ghost" r = ["state_says_running_but_process_missing"]
  ∧ issues_for "sleeper" r = ["state_says_running_but_process_missing"]
  ∧ issues_for "idle" r = []
  ∧ issues_for "resting" r = []
  ∧ issues_for "btc_long_v1" r = []
  ∧ issues_for "nobody" r = [].
Proof.
  intros r. unfold r.
  split.
  { apply (proj1 (reconcile_classification sample_isoformat false
                    sample_processes sample_file_states sample_world "mm_1h")
             (ProcState (Some 4242%Z) true (Some "at 3") "python3 mm_optimized_1h.py")
             eq_refl eq_refl). }
  split.
  { apply (proj1 (proj2 (reconcile_classification sample_isoformat false
                    sample_processes sample_file_states sample_world "ghost"))
             (FileState (JStr "running") JNull "at 0") eq_refl eq_refl).
    by left. }
  split.
  { apply (proj1 (proj2 (reconcile_classification sample_isoformat false
                    sample_processes sample_file_states sample_world "sleeper"))
             (FileState (JStr "active") JNull "at 1") eq_refl eq_refl).
    by right. }
  split.
  { apply (proj1 (proj2 (proj2 (reconcile_classification sample_isoformat false
                    sample_processes sample_file_states sample_world "idle")))
             (FileState (JStr "stopped") (JStr "at 2") "at 2") eq_refl eq_refl);
      discriminate. }
  split.
  { apply (proj1 (proj2 (proj2 (reconcile_classification sample_isoformat false
                    sample_processes sample_file_states sample_world "resting")))
             (FileState (JStr "paused") (JStr "at 6") "at 6") eq_refl eq_refl);
      discriminate. }
  split.
  { apply (proj1 (proj2 (proj2 (proj2 (reconcile_classification
                    sample_isoformat false sample_processes sample_file_states
                    sample_world "btc_long_v1"))))
             (ProcState (Some 4243%Z) true (Some "at 4") "python3 btc_long.py")
             (FileState (JStr "running") (JStr "at 5") "at 5") eq_refl eq_refl). }
  apply (proj2 (proj2 (proj2 (proj2 (reconcile_classification
                 sample_isoformat false sample_processes sample_file_states
                 sample_world "nobody")))) eq_refl eq_refl).
Defined.

(** C2 on the sample world: "mm_1h" runs without a state file, "ghost" has a
    state file that says running and no process. *)
Lemma reconcile_auto_fix_witness :
  let out := reconcile sample_isoformat true sample_world in
  (∃ d, holds_document out.2 (state_file_of "mm_1h") d
        ∧ d !! "status" = Some (JStr "running")
        ∧ d !! "status_color" = Some (JStr "green")
        ∧ "mm_1h" ∈ fixed out.1)
  ∧ (∃ d', holds_document out.2 (state_file_of "ghost") d'
           ∧ d' !! "status" = Some (JStr "stopped")
           ∧ d' !! "status_color" = Some (JStr "red")
           ∧ "ghost" ∈ fixed out.1).
Proof.
  split.
  - eapply (proj1 (reconcile_auto_fix sample_isoformat sample_world) "mm_1h");
      vm_compute; reflexivity.
  - destruct (proj2 (reconcile_auto_fix sample_isoformat sample_world) "ghost"
                {["status" := JStr "running"]} 0)
      as (d' & Hdoc & Hs & Hc & _ & Hfix);
      [vm_compute; reflexivity | left; vm_compute; reflexivity
      | vm_compute; reflexivity |].
    exists d'. exact (conj Hdoc (conj Hs (conj Hc Hfix))).
Defined.

(** C4 on a record with 50 trades and a pnl of 123.5, and on a fresh bot. *)
Lemma record_trade_additive_witness :
  (∃ cur σ',
     record_trade sample_isoformat 1.5 "long" (sample_writer, traded_world)
     = (Returns cur, (sample_writer, σ'))
     ∧ cur !! "trades_total" = Some (JInt 51)
     ∧ cur !! "pnl_total" = Some (JFloat 125))
  ∧ (∃ self σ1 cur1 s2 cur2 s3,
       __init__ sample_isoformat "ghost" None empty_world = (Returns self, σ1)
       ∧ record_trade sample_isoformat 5 "long" (self, σ1) = (Returns cur1, s2)
       ∧ record_trade sample_isoformat 3 "short" s2 = (Returns cur2, s3)
       ∧ cur2 !! "trades_total" = Some (JInt 2)
       ∧ cur2 !! "pnl_total" = Some (JFloat 8)).
Proof.
  split.
  - destruct (proj1 (record_trade_additive sample_isoformat) sample_writer
                traded_world traded_record 0 50%Z 5%Z 123.5%float 12.25%float 1.5%float "long")
      as (cur & σ' & Hrun & _ & Htt & _ & Hpt & _);
      [vm_compute; reflexivity..|].
    exists cur, σ'. exact (conj Hrun (conj Htt Hpt)).
  - destruct (proj2 (record_trade_additive sample_isoformat) "ghost" None
                empty_world "long" "short")
      as (self & σ1 & cur1 & s2 & cur2 & s3 & H1 & H2 & H3 & H4 & H5 & _);
      [vm_compute; reflexivity|].
    exists self, σ1, cur1, s2, cur2, s3.
    exact (conj H1 (conj H2 (conj H3 (conj H4 H5)))).
Defined.

(** C5 on an update that supplies the colour green with the status stopped. *)
Lemma status_color_follows_status_witness :
  ∃ cur σ',
    update sample_isoformat
      (<["status" := JStr "stopped"]> {["status_color" := JStr "green"]})
      (sample_writer, traded_world) = (Returns cur, (sample_writer, σ'))
    ∧ holds_document σ' (state_file_of "ghost") cur
    ∧ cur !! "status" = Some (JStr "stopped")
    ∧ cur !! "status_color" = Some (JStr "red").
Proof.
  destruct (proj1 (proj2 (status_color_follows_status sample_isoformat))
              (<["status" := JStr "stopped"]> {["status_color" := JStr "green"]})
              "stopped" sample_writer traded_world)
    as (cur & σ' & c & Hrun & Hdoc & Hs & Hc & Hcolor);
    [intros mtime; vm_compute; discriminate | vm_compute; reflexivity |].
  exists cur, σ'. split; [exact Hrun|]. split; [exact Hdoc|].
  split; [exact Hs|].
  vm_compute in Hc. injection Hc as <-. exact Hcolor.
Defined.

(** C6 (as stated, refuted): the reconciler synthesizes the state file of
    "mm_1h"; a writer for that bot then updates only the status, and the
    record comes back with pnl_total, trades_total and position, which the
    state record did not have before the call. *)
Lemma update_status_adds_fields :
  let σ1 := (reconcile sample_isoformat true sample_world).2 in
  let self := Writer "mm_1h" "mm_1h" (state_file_of "mm_1h")
                (default_state "mm_1h" "mm_1h") in
  let before := read_json (state_file_of "mm_1h") σ1 in
  let after :=
    (update sample_isoformat {["status" := JStr "paused"]} (self, σ1)).1 in
  (__init__ sample_isoformat "mm_1h" None σ1).1 = Returns self
  ∧ field_of "status" before = Returns (Some (JStr "running"))
  ∧ field_of "status" after = Returns (Some (JStr "paused"))
  ∧ field_of "pnl_total" before = Returns None
  ∧ field_of "pnl_total" after = Returns (Some (JFloat 0))
  ∧ field_of "trades_total" before = Returns None
  ∧ field_of "trades_total" after = Returns (Some (JInt 0))
  ∧ field_of "position" before = Returns None
  ∧ field_of "position" after = Returns (Some JNull).
Proof.
  cbv zeta. do 8 (split; [vm_compute; reflexivity|]). vm_compute; reflexivity.
Qed.

(** C6 (amended) on the complete record of "ghost". *)
Lemma update_status_keeps_fields_witness :
  ∃ cur σ',
    update sample_isoformat {["status" := JStr "paused"]}
      (sample_writer, traded_world) = (Returns cur, (sample_writer, σ'))
    ∧ cur !! "pnl_total" = Some (JFloat 123.5)
    ∧ cur !! "trades_total" = Some (JInt 50)
    ∧ cur !! "position" = Some JNull.
Proof.
  destruct (update_status_keeps_fields sample_isoformat "paused" sample_writer
              traded_world traded_record 0) as (cur & σ' & Hrun & _ & Hkept & _);
    [vm_compute; reflexivity|].
  assert (∀ k : string,
            k ≠ "status" → k ≠ "status_color" → k ≠ "last_update" →
            k ∉ ["status"; "status_color"; "last_update"]) as Hother.
  { intros k H1 H2 H3 Hin.
    repeat (apply elem_of_cons in Hin as [Hin|Hin]; [congruence|]).
    by apply elem_of_nil in Hin. }
  exists cur, σ'. split; [exact Hrun|].
  split; [|split].
  - apply (Hkept "pnl_total" (JFloat 123.5)); [by apply Hother|].
    vm_compute; reflexivity.
  - apply (Hkept "trades_total" (JInt 50)); [by apply Hother|].
    vm_compute; reflexivity.
  - apply (Hkept "position" JNull); [by apply Hother|].
    vm_compute; reflexivity.
Defined.

(** C7 on a write over the record of "ghost". *)
Lemma write_is_atomic_witness :
  state_file sample_writer = state_file_of "ghost"
  ∧ ∀ σ', σ' ∈ _write_trace sample_isoformat sample_writer ∅ traded_world →
          files σ' !! state_file_of "ghost"
          = files traded_world !! state_file_of "ghost"
          ∨ holds_document σ' (state_file_of "ghost")
              {["last_update" := JStr (sample_isoformat 7)]}.
Proof.
  split; [reflexivity|].
  intros σ' Hin.
  apply (write_is_atomic sample_isoformat sample_writer "ghost" ∅ traded_world
           eq_refl), Hin.
Defined.

(** C9 on the empty state directory. *)
Lemma init_creates_state_file_witness :
  files empty_world !! state_file_of "mm_1h" = None
  ∧ ∃ self σ' d,
      __init__ sample_isoformat "mm_1h" (Some "Market Maker 1H") empty_world
      = (Returns self, σ')
      ∧ holds_document σ' (state_file_of "mm_1h") d
      ∧ d !! "status" = Some (JStr "initializing")
      ∧ d !! "last_update" = Some (JStr (sample_isoformat 0)).
Proof.
  split; [reflexivity|].
  destruct (init_creates_state_file sample_isoformat "mm_1h"
              (Some "Market Maker 1H") empty_world eq_refl)
    as (self & σ' & d & Hinit & Hdoc & _ & _ & _ & Hs & Hrest).
  exists self, σ', d. split; [exact Hinit|]. split; [exact Hdoc|].
  split; [exact Hs|]. apply Hrest.
Defined.

(** C10 on the sample world. *)
Lemma synthesized_state_fields_witness :
  ∃ d, holds_document (reconcile sample_isoformat true sample_world).2
                      (state_file_of "mm_1h") d
       ∧ dom d = list_to_set ["bot_id"; "bot_name"; "status"; "status_color";
                              "pid"; "started_at"; "last_update"; "reconciled"].
Proof.
  eapply (proj2 (synthesized_state_fields sample_isoformat)
            (get_process_states sample_isoformat sample_world)
            (get_file_states sample_isoformat sample_world)
            sample_world "mm_1h");
    vm_compute; reflexivity.
Defined.

(** ** Further properties of the state writer *)

Section WriterMore.
Context (isoformat : nat → string).

Ltac run :=
  cbv [mbind mret M_bind M_ret gets modify raise lift_outcome in_world do_world
       try_world set_default_state datetime_now fst snd].

Lemma temp_file_differs self b :
  state_file self = state_file_of b →
  with_suffix (state_file self) ".tmp" ≠ state_file self.
Proof. intros ->. by intros [=]. Qed.

(** The files after a [_write]: the state file holds the document, the
    temporary file is gone, every other file is as it was. *)
Lemma written_files self b doc σ :
  state_file self = state_file_of b →
  files (written self doc σ)
  = <[state_file self := File (Document doc) (S (time σ))]>
      (delete (with_suffix (state_file self) ".tmp") (files σ)).
Proof.
  intros Hsf. unfold written, replace. rewrite write_text_lookup.
  unfold write_text, write_all, open_w, set_files. simpl.
  by rewrite insert_insert_eq, delete_insert_eq.
Qed.

Lemma write_returns_written self state σ :
  _write isoformat state (self, σ)
  = (Returns (<["last_update" := JStr (isoformat (time σ))]> state),
     (self, written self (<["last_update" := JStr (isoformat (time σ))]> state) σ)).
Proof. reflexivity. Qed.

(** [update] in three steps: load, colour, write. *)
Lemma update_unfold updates self σ :
  update isoformat updates (self, σ)
  = match loaded self σ with
    | Raises e => (Raises e, (self, σ))
    | Returns current =>
        match color_map_get (dict_get (updates ∪ current) "status" (JStr "unknown")) with
        | Raises e => (Raises e, (self, σ))
        | Returns c =>
            _write isoformat (<["status_color" := JStr c]> (updates ∪ current)) (self, σ)
        end
    end.
Proof.
  unfold update, loaded. run. unfold path_exists, read_json.
  destruct (files σ !! state_file self) as [[[d|] mtime]|] eqn:Hf;
    run; rewrite ?Hf; cbn [json_loads content]; try done;
    by destruct (color_map_get _).
Qed.

End WriterMore.

(** ** Further properties of the process observer and of the readers *)

Section Observers.
Context (isoformat : nat → string).

Lemma extract_bot_id_known cmdline b :
  _extract_bot_id cmdline = Some b → b ∈ bot_ids.
Proof.
  unfold _extract_bot_id, bot_ids.
  repeat match goal with
         | |- context [if ?c then _ else _] => destruct c
         end; intros [= <-]; set_solver.
Qed.

Lemma take_chars_length n s : String.length (take_chars n s) ≤ n.
Proof.
  unfold take_chars. revert s. induction n as [|n IH]; intros [|c s]; simpl;
    try lia. specialize (IH s). lia.
Qed.

(** The two loop bodies of [get_process_states]. *)
Lemma psutil_step_hit (states : gmap string proc_state) p b :
  classified b p →
  match p_cmdline p with
  | [] => states
  | cmdline =>
      match _extract_bot_id (join " " cmdline) with
      | Some bot_id =>
          <[bot_id := ProcState (Some (p_pid p)) true
                        (Some (isoformat (p_create_time p)))
                        (take_chars 200 (join " " cmdline))]> states
      | None => states
      end
  end !! b = Some (psutil_entry isoformat p).
Proof.
  intros [Hne Hb]. unfold psutil_entry.
  destruct (p_cmdline p) as [|a l] eqn:Hc; [done|]. cbv zeta.
  rewrite Hb. by rewrite lookup_insert_eq.
Qed.

Lemma psutil_step_miss (states : gmap string proc_state) p b :
  ¬ classified b p →
  match p_cmdline p with
  | [] => states
  | cmdline =>
      match _extract_bot_id (join " " cmdline) with
      | Some bot_id =>
          <[bot_id := ProcState (Some (p_pid p)) true
                        (Some (isoformat (p_create_time p)))
                        (take_chars 200 (join " " cmdline))]> states
      | None => states
      end
  end !! b = states !! b.
Proof.
  intros Hb. unfold classified in Hb.
  destruct (p_cmdline p) as [|a l] eqn:Hc; [done|]. cbv zeta.
  destruct (_extract_bot_id (join " " (a :: l))) as [b'|] eqn:He; [|done].
  rewrite lookup_insert_ne; [done|]. intros ->. by apply Hb.
Qed.

(** X1: with [psutil] a bot is in the process map exactly when some listed
    process with a non-empty command line is classified as that bot, and its
    entry is that of the last such process, with its pid and start time. *)
Theorem psutil_last_process_wins σ procs b :
  psutil σ = Some procs →
  (∀ l1 p l2,
     procs = l1 ++ p :: l2 → classified b p →
     (∀ q, q ∈ l2 → ¬ classified b q) →
     get_process_states isoformat σ !! b = Some (psutil_entry isoformat p))
  ∧ ((∀ q, q ∈ procs → ¬ classified b q) →
     get_process_states isoformat σ !! b = None).
Proof.
  intros Hps. unfold get_process_states. rewrite Hps.
  match goal with
  | |- context [foldl ?f ∅ _] => set (step := f)
  end.
  assert (∀ l (states : gmap string proc_state),
            (∀ q, q ∈ l → ¬ classified b q) →
            foldl step states l !! b = states !! b) as Hmiss.
  { intros l states Hl.
    apply (foldl_invariant_elem (λ a, a !! b = states !! b)); [|done].
    intros a q Hq <-. by apply psutil_step_miss, Hl. }
  split.
  - intros l1 p l2 -> Hp Hl2. rewrite foldl_app. cbn [foldl].
    rewrite Hmiss by done. by apply psutil_step_hit.
  - intros Hnone. by rewrite Hmiss.
Qed.

(** X2: without [psutil] a bot is in the process map exactly when some line
    of the process listing is classified as that bot, and its entry is that
    of the first such line, without pid and without start time. *)
Theorem fallback_first_line_wins σ b :
  psutil σ = None →
  (∀ l1 x l2,
     ps_aux σ = l1 ++ x :: l2 → _extract_bot_id x = Some b →
     (∀ y, y ∈ l1 → _extract_bot_id y ≠ Some b) →
     get_process_states isoformat σ !! b
     = Some (ProcState None true None (take_chars 200 x)))
  ∧ ((∀ y, y ∈ ps_aux σ → _extract_bot_id y ≠ Some b) →
     get_process_states isoformat σ !! b = None).
Proof.
  intros Hps. unfold get_process_states. rewrite Hps.
  match goal with
  | |- context [foldl ?f ∅ _] => set (step := f)
  end.
  assert (∀ l (states : gmap string proc_state),
            (∀ y, y ∈ l → _extract_bot_id y ≠ Some b) →
            foldl step states l !! b = states !! b) as Hmiss.
  { intros l states Hl.
    apply (foldl_invariant_elem (λ a, a !! b = states !! b)); [|done].
    intros a y Hy <-. unfold step.
    destruct (_extract_bot_id y) as [b'|] eqn:He; [|done].
    destruct (a !! b'); [done|].
    rewrite lookup_insert_ne; [done|]. intros ->. by apply (Hl y). }
  assert (∀ l (states : gmap string proc_state) e,
            states !! b = Some e → foldl step states l !! b = Some e) as Hkeep.
  { intros l states e He.
    apply (foldl_invariant (λ a, a !! b = Some e)); [|done].
    intros a y Ha. unfold step.
    destruct (_extract_bot_id y) as [b'|]; [|done].
    destruct (a !! b') eqn:Hb'; [done|].
    rewrite lookup_insert_ne; [done|]. intros ->. congruence. }
  split.
  - intros l1 x l2 Hl Hx Hl1. rewrite Hl, foldl_app. cbn [foldl].
    apply Hkeep. unfold step at 1. rewrite Hx, Hmiss by done.
    rewrite lookup_empty. by rewrite lookup_insert_eq.
  - intros Hnone. by rewrite Hmiss.
Qed.

(** Every entry of the process map, in either mode. *)
Lemma process_map_entry σ b e :
  get_process_states isoformat σ !! b = Some e →
  b ∈ bot_ids ∧ ps_running e = true ∧ String.length (ps_cmdline e) ≤ 200
  ∧ (psutil σ = None → ps_pid e = None ∧ ps_started_at e = None).
Proof.
  unfold get_process_states.
  destruct (psutil σ) as [procs|]; revert b e;
    match goal with
    | |- ∀ b e, foldl ?f ∅ ?l !! b = Some e → ?Q =>
        apply (foldl_invariant (λ a, ∀ b e, a !! b = Some e → Q) f); [|done]
    end.
  - intros a p IH b e. destruct (p_cmdline p) as [|x l]; [apply IH|].
    cbv zeta. destruct (_extract_bot_id (join " " (x :: l))) as [b'|] eqn:He; [|apply IH].
    destruct (decide (b' = b)) as [->|Hne].
    + rewrite lookup_insert_eq. intros [= <-]. simpl.
      split; [by eapply extract_bot_id_known|].
      split; [done|]. split; [apply take_chars_length|done].
    + rewrite lookup_insert_ne by done. apply IH.
  - intros a y IH b e.
    destruct (_extract_bot_id y) as [b'|] eqn:He; [|apply IH].
    destruct (a !! b') eqn:Hb'; [apply IH|].
    destruct (decide (b' = b)) as [->|Hne].
    + rewrite lookup_insert_eq. intros [= <-]. simpl.
      split; [by eapply extract_bot_id_known|].
      split; [done|]. split; [apply take_chars_length|done].
    + rewrite lookup_insert_ne by done. apply IH.
Qed.

(** X3: in either mode the process map only holds bots of the seven known
    ids, so it has at most seven entries; every entry is marked running and
    keeps at most 200 characters of the command line. *)
Theorem process_map_bounded σ :
  (∀ b e, get_process_states isoformat σ !! b = Some e →
          b ∈ bot_ids ∧ ps_running e = true
          ∧ String.length (ps_cmdline e) ≤ 200)
  ∧ size (get_process_states isoformat σ) ≤ 7.
Proof.
  split.
  - intros b e He. by destruct (process_map_entry σ b e He) as (?&?&?&_).
  - rewrite <- size_dom.
    transitivity (size (list_to_set bot_ids : gset string)).
    + apply subseteq_size. intros b [e He]%elem_of_dom.
      apply elem_of_list_to_set. by destruct (process_map_entry σ b e He).
    + done.
Qed.

End Observers.

(** ** Further properties of the readers *)

Section Readers.
Context (isoformat : nat → string).

(** The document of a file, if it holds one. *)
Lemma load_state_files_lookup (l : list (path * file)) acc b :
  NoDup l.*1 →
  foldl load_state_file acc l !! b
  = match (list_to_map l : gmap path file) !! state_file_of b
          ≫= document_of with
    | Some d => Some d
    | None => acc !! b
    end.
Proof.
  revert acc. induction l as [|[[stem suffix] f] l IH]; intros acc Hnd; [done|].
  apply NoDup_cons in Hnd as [Hk Hnd]. simpl in Hk.
  cbn [foldl list_to_map foldr]. rewrite IH by done.
  destruct (decide ((stem, suffix) = state_file_of b)) as [Heq|Hne].
  - rewrite Heq in Hk |- *. rewrite lookup_insert_eq.
    apply (not_elem_of_list_to_map_1 (M:=gmap path)) in Hk. rewrite Hk. simpl.
    injection Heq as -> ->. unfold load_state_file, document_of. simpl.
    destruct (content f); simpl; [by rewrite lookup_insert_eq|done].
  - rewrite lookup_insert_ne by done.
    destruct (list_to_map l !! state_file_of b ≫= document_of); [done|].
    unfold load_state_file. case_decide as Hs; [|done].
    destruct (json_loads (content f)); [|done].
    rewrite lookup_insert_ne; [done|].
    intros ->. apply Hne. unfold state_file_of. by rewrite Hs.
Qed.

Lemma get_all_bot_states_lookup σ b :
  get_all_bot_states σ !! b = files σ !! state_file_of b ≫= document_of.
Proof.
  unfold get_all_bot_states.
  rewrite load_state_files_lookup by apply NoDup_fst_map_to_list.
  rewrite list_to_map_to_list, lookup_empty.
  by destruct (files σ !! state_file_of b ≫= document_of).
Qed.

Lemma file_state_entry σ b fs :
  get_file_states isoformat σ !! b = Some fs →
  ∃ d mtime,
    files σ !! state_file_of b = Some (File (Document d) mtime)
    ∧ fs = FileState (dict_get d "status" (JStr "unknown"))
                     (dict_get d "last_update" JNull) (isoformat mtime).
Proof.
  rewrite get_file_states_lookup. unfold summarise.
  destruct (files σ !! state_file_of b) as [[[d|] mtime]|]; simpl; try done.
  intros [= <-]. by exists d, mtime.
Qed.

(** X4: the file map of the reconciler has an entry for a bot exactly when
    the state file of the bot holds a document; the entry carries the status
    of the document, "unknown" when it has none, its last_update, null when
    it has none, and the modification time of the file. Files that do not
    parse and files with another suffix give no entry. *)
Theorem file_map_entries σ b :
  (∀ fs, get_file_states isoformat σ !! b = Some fs ↔
         ∃ d mtime,
           files σ !! state_file_of b = Some (File (Document d) mtime)
           ∧ fs = FileState (dict_get d "status" (JStr "unknown"))
                            (dict_get d "last_update" JNull)
                            (isoformat mtime))
  ∧ (get_file_states isoformat σ !! b = None ↔
     files σ !! state_file_of b = None
     ∨ ∃ mtime, files σ !! state_file_of b = Some (File Malformed mtime)).
Proof.
  rewrite get_file_states_lookup. unfold summarise.
  destruct (files σ !! state_file_of b) as [[[d|] mtime]|]; simpl; split.
  - intros fs. split.
    + intros [= <-]. by exists d, mtime.
    + by intros (d' & mtime' & [= <- <-] & ->).
  - split; [done|]. by intros [|[? ?]].
  - intros fs. split; [done|]. by intros (d' & mtime' & ? & _).
  - split; [|done]. intros _. right. by exists mtime.
  - intros fs. split; [done|]. by intros (d' & mtime' & ? & _).
  - split; [|done]. by left.
Qed.

(** X5: [get_all_bot_states] maps a bot to the document of its state file,
    and has an entry for exactly the bots that the file map of the reconciler
    has an entry for. *)
Theorem all_bot_states_entries σ :
  (∀ b d, get_all_bot_states σ !! b = Some d ↔
          ∃ mtime, files σ !! state_file_of b = Some (File (Document d) mtime))
  ∧ dom (get_all_bot_states σ) = dom (get_file_states isoformat σ).
Proof.
  split.
  - intros b d. rewrite get_all_bot_states_lookup. unfold document_of.
    destruct (files σ !! state_file_of b) as [[[d'|] mtime]|]; simpl.
    + split; [intros [= <-]; by exists mtime|by intros [? [= <- _]]].
    + split; [done|by intros [? ?]].
    + split; [done|by intros [? ?]].
  - apply set_eq. intros b. rewrite !elem_of_dom.
    rewrite get_all_bot_states_lookup, get_file_states_lookup.
    unfold document_of, summarise.
    destruct (files σ !! state_file_of b) as [[[d'|] mtime]|]; simpl;
      split; intros [? ?]; done.
Qed.

Lemma clear_files_lookup (l : list (path * file)) σ0 q :
  files (foldl (λ σ (entry : path * file),
                  if decide (entry.1.2 = ".json") then unlink entry.1 σ else σ)
               σ0 l) !! q
  = if decide (q ∈ l.*1 ∧ q.2 = ".json") then None else files σ0 !! q.
Proof.
  revert σ0. induction l as [|[p f] l IH]; intros σ0.
  - cbn [foldl]. rewrite decide_False; [done|]. intros [[]%elem_of_nil _].
  - cbn [foldl fst]. rewrite IH. rewrite fmap_cons. cbn [fst].
    destruct (decide (q ∈ l.*1 ∧ q.2 = ".json")) as [[Hin Hs]|Hn].
    + rewrite decide_True; [done|]. split; [by right|done].
    + destruct (decide (p.2 = ".json")) as [Hp|Hp].
      * unfold unlink. simpl. destruct (decide (q = p)) as [->|Hqp].
        -- rewrite lookup_delete_eq. rewrite decide_True; [done|].
           split; [by left|done].
        -- rewrite lookup_delete_ne by done. rewrite decide_False; [done|].
           intros [[->|Hin]%elem_of_cons Hs]; [done|]. by apply Hn.
      * rewrite decide_False; [done|].
        intros [[->|Hin]%elem_of_cons Hs]; [done|]. by apply Hn.
Qed.

(** X6: [clear_all_states] removes every [*.json] file of the directory and
    no other file; afterwards neither reader sees any bot. *)
Theorem clear_all_states_clears σ :
  (∀ q, files (clear_all_states σ) !! q
        = if decide (q.2 = ".json") then None else files σ !! q)
  ∧ get_all_bot_states (clear_all_states σ) = ∅
  ∧ get_file_states isoformat (clear_all_states σ) = ∅.
Proof.
  assert (∀ q, files (clear_all_states σ) !! q
               = if decide (q.2 = ".json") then None else files σ !! q) as Hq.
  { intros q. unfold clear_all_states. rewrite clear_files_lookup.
    destruct (decide (q.2 = ".json")) as [Hs|Hs].
    - destruct (files σ !! q) as [f|] eqn:Hf.
      + rewrite decide_True; [done|]. split; [|done].
        apply list_elem_of_fmap. exists (q, f).
        split; [done|]. by apply elem_of_map_to_list.
      + by case_decide.
    - rewrite decide_False; [done|]. by intros [_ ?]. }
  split; [exact Hq|]. split.
  - apply map_eq. intros b.
    by rewrite get_all_bot_states_lookup, Hq, lookup_empty.
  - apply map_eq. intros b.
    by rewrite get_file_states_lookup, Hq, lookup_empty.
Qed.

(** X7: at every point of a [_write] for the bot [b], the two readers see
    every other bot as before the write, and see [b] either as before or
    with the complete new document. *)
Theorem readers_during_write self b state σ σ' :
  state_file self = state_file_of b →
  σ' ∈ _write_trace isoformat self state σ →
  let doc := <["last_update" := JStr (isoformat (time σ))]> state in
  (∀ b', b' ≠ b →
         get_all_bot_states σ' !! b' = get_all_bot_states σ !! b'
         ∧ get_file_states isoformat σ' !! b'
           = get_file_states isoformat σ !! b')
  ∧ (get_all_bot_states σ' !! b = get_all_bot_states σ !! b
     ∨ get_all_bot_states σ' !! b = Some doc)
  ∧ (get_file_states isoformat σ' !! b = get_file_states isoformat σ !! b
     ∨ ∃ mtime, get_file_states isoformat σ' !! b
                = summarise isoformat (File (Document doc) mtime)).
Proof.
  intros Hsf Hin doc.
  assert ((∀ q, q.2 = ".json" → q ≠ state_file_of b →
                files σ' !! q = files σ !! q)
          ∧ (files σ' !! state_file_of b = files σ !! state_file_of b
             ∨ ∃ mtime, files σ' !! state_file_of b
                        = Some (File (Document doc) mtime))) as [Hother Hown].
  { unfold _write_trace in Hin. cbn [datetime_now] in Hin. rewrite Hsf in Hin.
    fold doc in Hin.
    assert (with_suffix (state_file_of b) ".tmp" ≠ state_file_of b) as Hne
      by (by intros [=]).
    repeat (apply elem_of_cons in Hin as [->|Hin]);
      [..|by apply elem_of_nil in Hin].
    - split; [done|by left].
    - split; [done|by left].
    - unfold open_w. simpl. split.
      + intros q Hq _. rewrite lookup_insert_ne; [done|]. by intros <-.
      + left. by rewrite lookup_insert_ne.
    - unfold write_all, open_w. simpl. split.
      + intros q Hq _. rewrite !lookup_insert_ne; [done|by intros <-..].
      + left. by rewrite !lookup_insert_ne.
    - unfold replace, write_all, open_w. simpl. rewrite lookup_insert_eq. simpl.
      split.
      + intros q Hq Hqb. rewrite lookup_insert_ne by done.
        rewrite lookup_delete_ne by (by intros <-).
        rewrite !lookup_insert_ne; [done|by intros <-..].
      + right. eexists. by rewrite lookup_insert_eq. }
  split; [|split].
  - intros b' Hb'.
    rewrite !get_all_bot_states_lookup, !get_file_states_lookup.
    rewrite Hother; [done|done|]. by intros [=].
  - rewrite !get_all_bot_states_lookup.
    destruct Hown as [->|[mtime ->]]; [by left|by right].
  - rewrite !get_file_states_lookup.
    destruct Hown as [->|[mtime ->]]; [by left|right; by exists mtime].
Qed.

End Readers.

(** ** Further properties of the reconciler *)

Section ReconcilerMore.
Context (isoformat : nat → string).

Lemma reconcile_with_reads_only procs fstates σ :
  (reconcile_with isoformat false procs fstates σ).2 = tick σ
  ∧ fixed (reconcile_with isoformat false procs fstates σ).1 = [].
Proof.
  unfold reconcile_with. cbn [datetime_now].
  set (P := λ a : report * world, a.2 = tick σ ∧ fixed a.1 = []).
  apply (foldl_invariant P); [|apply (foldl_invariant P); [|done]].
  - intros [r σ1] [b fs] HP. unfold P, check_file in *. simpl in *.
    destruct (procs !! b); [done|]. by destruct (says_running fs).
  - intros [r σ1] [b p] HP. unfold P, check_process in *. simpl in *.
    by destruct (fstates !! b).
Qed.

(** X8: without auto-fix a run only reads: the world it leaves is the one it
    found, one clock reading later, and the fixed list is empty. *)
Theorem reconcile_without_fix_reads_only
    (procs : gmap string proc_state) (fstates : gmap string file_state) σ :
  (reconcile_with isoformat false procs fstates σ).2 = tick σ
  ∧ fixed (reconcile_with isoformat false procs fstates σ).1 = [].
Proof. apply reconcile_with_reads_only. Qed.

(** In auto-fix mode the fixed list runs along the mismatches. *)
Lemma fixed_along_mismatches procs fstates σ :
  fixed (reconcile_with isoformat true procs fstates σ).1
  = m_bot_id <$> mismatches (reconcile_with isoformat true procs fstates σ).1.
Proof.
  unfold reconcile_with. cbn [datetime_now].
  set (P := λ a : report * world, fixed a.1 = m_bot_id <$> mismatches a.1).
  apply (foldl_invariant P); [|apply (foldl_invariant P); [|done]].
  - intros [r σ1] [b fs] HP. unfold P, check_file in *. simpl in *.
    destruct (procs !! b); [done|]. destruct (says_running fs); [|done].
    simpl. by rewrite fmap_app, HP.
  - intros [r σ1] [b p] HP. unfold P, check_process in *. simpl in *.
    destruct (fstates !! b); [done|]. simpl. by rewrite fmap_app, HP.
Qed.

(** X9: in auto-fix mode the fixed list is the list of the bots of the
    mismatches, in the same order: every mismatch is marked fixed, whether or
    not a file was rewritten for it. *)
Theorem fixed_lists_every_mismatch
    (procs : gmap string proc_state) (fstates : gmap string file_state) σ :
  let r := (reconcile_with isoformat true procs fstates σ).1 in
  fixed r = m_bot_id <$> mismatches r.
Proof. apply fixed_along_mismatches. Qed.

Lemma create_state_file_env b p σ :
  psutil (_create_state_file isoformat b p σ) = psutil σ
  ∧ ps_aux (_create_state_file isoformat b p σ) = ps_aux σ.
Proof. done. Qed.

Lemma update_state_to_stopped_env b σ :
  psutil (_update_state_to_stopped isoformat b σ) = psutil σ
  ∧ ps_aux (_update_state_to_stopped isoformat b σ) = ps_aux σ.
Proof.
  unfold _update_state_to_stopped. destruct (path_exists _ σ); [|done].
  by destruct (read_json _ σ).
Qed.

(** What a run never does to the world, in either mode. *)
Lemma reconcile_with_keeps auto_fix procs fstates σ :
  let out := reconcile_with isoformat auto_fix procs fstates σ in
  (∀ q, (files out.2 !! q = files σ !! q
         ∨ ∃ b, q = state_file_of b ∧ b ∈ fixed out.1)
        ∧ (is_Some (files σ !! q) → is_Some (files out.2 !! q)))
  ∧ psutil out.2 = psutil σ ∧ ps_aux out.2 = ps_aux σ.
Proof.
  unfold reconcile_with. cbn [datetime_now].
  set (P := λ a : report * world,
         (∀ q, (files a.2 !! q = files σ !! q
                ∨ ∃ b, q = state_file_of b ∧ b ∈ fixed a.1)
               ∧ (is_Some (files σ !! q) → is_Some (files a.2 !! q)))
         ∧ psutil a.2 = psutil σ ∧ ps_aux a.2 = ps_aux σ).
  apply (foldl_invariant P); [|apply (foldl_invariant P); [|by split; [split; auto|]]].
  - intros [r σ1] [b fs] (Hq & Hps & Haux). unfold P, check_file. cbn [fst snd] in *.
    destruct (procs !! b); [done|]. destruct (says_running fs); [|done].
    destruct auto_fix; [|done]. cbn [fst snd].
    destruct (update_state_to_stopped_env b σ1) as [-> ->].
    split; [|done]. intros q. destruct (Hq q) as [Hsame Hsome].
    destruct (decide (q = state_file_of b)) as [->|Hne].
    + split; [right; exists b; split; [done|]; apply elem_of_app; right; by left|].
      intros Hs. specialize (Hsome Hs).
      destruct (files σ1 !! state_file_of b) as [[[d|] mtime]|] eqn:Hd.
      * by rewrite (update_state_to_stopped_document _ _ _ _ _ Hd), lookup_insert_eq.
      * unfold _update_state_to_stopped, path_exists, read_json.
        rewrite Hd. simpl. by rewrite Hd.
      * by destruct Hsome.
    + rewrite update_state_to_stopped_frame by done. split; [|done].
      destruct Hsame as [?|(b' & ? & ?)]; [by left|].
      right. exists b'. split; [done|]. apply elem_of_app. by left.
  - intros [r σ1] [b p] (Hq & Hps & Haux). unfold P, check_process. cbn [fst snd] in *.
    destruct (fstates !! b); [done|]. destruct auto_fix; [|done]. cbn [fst snd].
    destruct (create_state_file_env b p σ1) as [-> ->].
    split; [|done]. intros q. destruct (Hq q) as [Hsame Hsome].
    rewrite create_state_file_files.
    destruct (decide (q = state_file_of b)) as [->|Hne].
    + rewrite lookup_insert_eq.
      split; [right; exists b; split; [done|]; apply elem_of_app; right; by left|].
      by intros _.
    + rewrite lookup_insert_ne by done. split; [|done].
      destruct Hsame as [?|(b' & ? & ?)]; [by left|].
      right. exists b'. split; [done|]. apply elem_of_app. by left.
Qed.

(** X10: a run never removes a file, never touches a file that is not the
    state file of a bot it lists as fixed, and leaves the process listing as
    it was. *)
Theorem reconcile_changes_fixed_files_only auto_fix
    (procs : gmap string proc_state) (fstates : gmap string file_state) σ q :
  let out := reconcile_with isoformat auto_fix procs fstates σ in
  (files out.2 !! q ≠ files σ !! q →
   ∃ b, q = state_file_of b ∧ b ∈ fixed out.1)
  ∧ (is_Some (files σ !! q) → is_Some (files out.2 !! q))
  ∧ psutil out.2 = psutil σ ∧ ps_aux out.2 = ps_aux σ.
Proof.
  destruct (reconcile_with_keeps auto_fix procs fstates σ) as (Hq & Hps & Haux).
  destruct (Hq q) as [Hsame Hsome].
  split; [|done]. intros Hne. by destruct Hsame.
Qed.

(** The state file of a bot without mismatch is not written. *)
Lemma reconcile_with_untouched auto_fix procs fstates σ b :
  (∀ p, procs !! b = Some p → is_Some (fstates !! b)) →
  (∀ fs, fstates !! b = Some fs → procs !! b = None → says_running fs = false) →
  files (reconcile_with isoformat auto_fix procs fstates σ).2 !! state_file_of b
  = files σ !! state_file_of b.
Proof.
  intros Hp Hf. unfold reconcile_with. cbn [datetime_now].
  set (P := λ a : report * world,
         files a.2 !! state_file_of b = files σ !! state_file_of b).
  apply (foldl_invariant_elem P); [|apply (foldl_invariant_elem P); [|done]].
  - intros [r σ1] [k fs] Hin HP. unfold P in *.
    destruct (decide (k = b)) as [->|Hne].
    + apply elem_of_map_to_list in Hin. unfold check_file.
      destruct (procs !! b) eqn:Hpb; [done|]. by rewrite (Hf fs Hin eq_refl).
    + rewrite check_file_frame; [done|]. simpl. by intros ->%state_file_of_inj.
  - intros [r σ1] [k p] Hin HP. unfold P in *.
    destruct (decide (k = b)) as [->|Hne].
    + apply elem_of_map_to_list in Hin. unfold check_process.
      by destruct (Hp p Hin) as [fs ->].
    + rewrite check_process_frame; [done|]. simpl. by intros ->%state_file_of_inj.
Qed.

Lemma omap_all_None {A B} (g : A → option B) (l : list A) :
  (∀ x, x ∈ l → g x = None) → omap g l = [].
Proof.
  induction l as [|x l IH]; intros Hl; [done|].
  rewrite omap_cons_app, (Hl x), IH; [done| |by left].
  intros y Hy. apply Hl. by right.
Qed.

Lemma get_process_states_env σ1 σ2 :
  psutil σ1 = psutil σ2 → ps_aux σ1 = ps_aux σ2 →
  get_process_states isoformat σ1 = get_process_states isoformat σ2.
Proof. intros H1 H2. unfold get_process_states. by rewrite H1, H2. Qed.

(** After a run in auto-fix mode, the state file of each bot is untouched
    and the bot had no mismatch, or the bot runs and the file holds a
    document, or the bot does not run and the file says stopped. *)
Lemma reconcile_with_settles procs fstates σ b :
  (∀ fs, fstates !! b = Some fs →
         ∃ d mtime, files σ !! state_file_of b = Some (File (Document d) mtime)) →
  let σ' := (reconcile_with isoformat true procs fstates σ).2 in
  (files σ' !! state_file_of b = files σ !! state_file_of b
   ∧ (∀ p, procs !! b = Some p → is_Some (fstates !! b))
   ∧ (∀ fs, fstates !! b = Some fs → procs !! b = None →
            says_running fs = false))
  ∨ (is_Some (procs !! b) ∧ ∃ d, holds_document σ' (state_file_of b) d)
  ∨ (procs !! b = None
     ∧ ∃ d, holds_document σ' (state_file_of b) d
            ∧ d !! "status" = Some (JStr "stopped")).
Proof.
  intros Hent σ'.
  destruct (procs !! b) as [p|] eqn:Hp, (fstates !! b) as [fs|] eqn:Hf.
  - left. split; [|split]; [|by eauto|congruence].
    apply reconcile_with_untouched; [rewrite Hf; eauto|congruence].
  - right. left. split; [done|].
    destruct (reconcile_with_creates isoformat procs fstates σ b p Hp Hf)
      as [[t Hdoc] _]. eauto.
  - destruct (says_running fs) eqn:Hrun.
    + right. right. split; [done|].
      destruct (Hent fs eq_refl) as (d & mtime & Hd).
      destruct (reconcile_with_stops isoformat procs fstates σ b fs d mtime
                  Hp Hf Hrun Hd) as [[t Hdoc] _].
      eexists. split; [exact Hdoc|].
      by rewrite !lookup_insert_ne, lookup_insert_eq by done.
    + left. split; [|split]; [|congruence|by intros fs0 [= <-] _].
      apply reconcile_with_untouched; [congruence|].
      rewrite Hf. by intros fs0 [= <-] _.
  - left. split; [|split]; [|congruence..].
    apply reconcile_with_untouched; congruence.
Qed.

(** X11: a run in auto-fix mode leaves nothing for the next run: with the
    process listing unchanged, the run that follows it, in either mode,
    reports no mismatch, is healthy and fixes nothing. *)
Theorem reconcile_converges σ auto_fix :
  let σ' := (reconcile isoformat true σ).2 in
  let r := (reconcile isoformat auto_fix σ').1 in
  mismatches r = [] ∧ healthy r = true ∧ fixed r = [].
Proof.
  intros σ' r.
  pose proof (λ b, reconcile_with_settles (get_process_states isoformat σ)
                     (get_file_states isoformat σ) σ b
                     (λ fs Hf, match file_state_entry isoformat σ b fs Hf with
                               | ex_intro _ d (ex_intro _ mtime (conj Hd _)) =>
                                   ex_intro _ d (ex_intro _ mtime Hd)
                               end)) as Hfiles.
  cbv zeta in Hfiles. fold (reconcile isoformat true σ) in Hfiles. fold σ' in Hfiles.
  assert (get_process_states isoformat σ' = get_process_states isoformat σ)
    as Hprocs.
  { apply get_process_states_env;
      by destruct (reconcile_with_keeps true (get_process_states isoformat σ)
                     (get_file_states isoformat σ) σ) as (_ & ? & ?). }
  assert (mismatches r = []) as Hnone.
  { unfold r, reconcile. rewrite reconcile_with_mismatches, Hprocs.
    rewrite !omap_all_None; [done|..].
    - intros [b fs'] Hin%elem_of_map_to_list. unfold file_mismatch. simpl.
      destruct (get_process_states isoformat σ !! b) as [p|] eqn:Hp; [done|].
      rewrite get_file_states_lookup in Hin.
      destruct (Hfiles b) as [(Hsame & _ & Hquiet)
                              |[([p Hp'] & _)|(_ & d & [mtime Hdoc] & Hs)]].
      + rewrite Hsame, <- get_file_states_lookup in Hin.
        by rewrite (Hquiet fs' Hin Hp).
      + congruence.
      + rewrite Hdoc in Hin. simpl in Hin. injection Hin as <-.
        unfold says_running, dict_get. simpl. by rewrite Hs.
    - intros [b p] Hin%elem_of_map_to_list. unfold process_mismatch. simpl.
      rewrite get_file_states_lookup.
      destruct (Hfiles b) as [(Hsame & Hsome & _)
                              |[(_ & d & [mtime Hdoc])|(Hp' & _)]].
      + rewrite Hsame, <- get_file_states_lookup.
        by destruct (Hsome p Hin) as [fs ->].
      + by rewrite Hdoc.
      + congruence. }
  split; [done|]. split.
  - by apply (reconcile_with_healthy isoformat auto_fix).
  - destruct auto_fix.
    + unfold r, reconcile in *. by rewrite fixed_along_mismatches, Hnone.
    + apply reconcile_with_reads_only.
Qed.

(** X12: a bot whose id is not one of the seven known ids is never seen as a
    process: when its state file says running or active, every run reports
    it as state_says_running_but_process_missing, and a run in auto-fix mode
    rewrites its state file to stopped and red. *)
Theorem unknown_bot_counts_as_missing σ b d mtime :
  b ∉ bot_ids →
  files σ !! state_file_of b = Some (File (Document d) mtime) →
  d !! "status" = Some (JStr "running") ∨ d !! "status" = Some (JStr "active") →
  (∀ auto_fix,
     issues_for b (reconcile isoformat auto_fix σ).1
     = ["state_says_running_but_process_missing"])
  ∧ ∃ d', holds_document (reconcile isoformat true σ).2 (state_file_of b) d'
          ∧ d' !! "status" = Some (JStr "stopped")
          ∧ d' !! "status_color" = Some (JStr "red").
Proof.
  intros Hb Hd Hstatus.
  assert (get_process_states isoformat σ !! b = None) as Hp.
  { destruct (get_process_states isoformat σ !! b) as [e|] eqn:He; [|done].
    by destruct (process_map_entry isoformat σ b e He). }
  assert (∃ fs, get_file_states isoformat σ !! b = Some fs
                ∧ says_running fs = true) as (fs & Hf & Hrun).
  { rewrite get_file_states_lookup, Hd. simpl. eexists. split; [done|].
    unfold says_running, dict_get. simpl. by destruct Hstatus as [-> | ->]. }
  split.
  - intros auto_fix. unfold reconcile.
    by rewrite reconcile_with_issues, Hp, Hf, Hrun.
  - destruct (reconcile_with_stops isoformat _ _ σ b fs d mtime Hp Hf Hrun Hd)
      as [[t Hdoc] _].
    eexists. split; [exact Hdoc|].
    split; by rewrite !lookup_insert_ne, lookup_insert_eq by done.
Qed.

(** X13: the state file that auto-fix synthesizes is filled from the
    observation: its pid and started_at are those of the process-map entry,
    its bot_name is the id with underscores as spaces in title case, and it
    is flagged reconciled; when the processes come from the fallback listing
    the pid and started_at are null. *)
Theorem synthesized_from_observation σ b p :
  get_process_states isoformat σ !! b = Some p →
  get_file_states isoformat σ !! b = None →
  ∃ d, holds_document (reconcile isoformat true σ).2 (state_file_of b) d
       ∧ d !! "bot_id" = Some (JStr b)
       ∧ d !! "bot_name" = Some (JStr (title (replace_char "_" " " b)))
       ∧ d !! "pid" = Some (json_of_option JInt (ps_pid p))
       ∧ d !! "started_at" = Some (json_of_option JStr (ps_started_at p))
       ∧ d !! "reconciled" = Some (JBool true)
       ∧ (psutil σ = None →
          d !! "pid" = Some JNull ∧ d !! "started_at" = Some JNull).
Proof.
  intros Hp Hf.
  destruct (reconcile_with_creates isoformat _ _ σ b p Hp Hf) as [[t Hdoc] _].
  eexists. split; [exact Hdoc|].
  do 5 (split; [done|]).
  intros Hps.
  destruct (process_map_entry isoformat σ b p Hp) as (_ & _ & _ & Hnull).
  destruct (Hnull Hps) as [Hpid Hstart].
  unfold synthesized_state. rewrite Hpid, Hstart. by split.
Qed.

End ReconcilerMore.

(** ** Further properties of the methods of the writer *)

Section WriterMethods.
Context (isoformat : nat → string).

Ltac run :=
  cbv [mbind mret M_bind M_ret gets modify raise lift_outcome in_world do_world
       try_world set_default_state datetime_now fst snd].

(** [update] when loading and colouring succeed. *)
Lemma update_returns updates self σ current c :
  loaded self σ = Returns current →
  color_map_get (dict_get (updates ∪ current) "status" (JStr "unknown")) = Returns c →
  update isoformat updates (self, σ)
  = (Returns (<["last_update" := JStr (isoformat (time σ))]> $
              <["status_color" := JStr c]> (updates ∪ current)),
     (self, written self (<["last_update" := JStr (isoformat (time σ))]> $
                          <["status_color" := JStr c]> (updates ∪ current)) σ)).
Proof. intros Hl Hc. by rewrite update_unfold, Hl, Hc. Qed.

Lemma not_in_two (k : string) :
  k ∉ ["status_color"; "last_update"] → k ≠ "status_color" ∧ k ≠ "last_update".
Proof.
  intros Hk. split; intros ->; apply Hk; [by left|right; by left].
Qed.

(** X14: [update] lays the supplied fields over the loaded record, then sets
    the colour and the stamp itself: a supplied field other than
    status_color and last_update comes out as supplied, a field not supplied
    comes out as loaded, and last_update is the instant of the call even when
    the caller supplies one. *)
Theorem update_applies_fields updates self σ current c :
  loaded self σ = Returns current →
  color_map_get (dict_get (updates ∪ current) "status" (JStr "unknown")) = Returns c →
  ∃ cur σ',
    update isoformat updates (self, σ) = (Returns cur, (self, σ'))
    ∧ cur !! "last_update" = Some (JStr (isoformat (time σ)))
    ∧ cur !! "status_color" = Some (JStr c)
    ∧ (∀ k v, k ∉ ["status_color"; "last_update"] →
              updates !! k = Some v → cur !! k = Some v)
    ∧ (∀ k, k ∉ ["status_color"; "last_update"] →
            updates !! k = None → cur !! k = current !! k).
Proof.
  intros Hl Hc. rewrite (update_returns _ _ _ _ _ Hl Hc). do 2 eexists.
  split; [reflexivity|].
  split; [by rewrite lookup_insert_eq|].
  split; [by rewrite lookup_insert_ne, lookup_insert_eq|].
  split.
  - intros k v [??]%not_in_two Hk. rewrite !lookup_insert_ne by done.
    by apply lookup_union_Some_l.
  - intros k [??]%not_in_two Hk. rewrite !lookup_insert_ne by done.
    by rewrite lookup_union_r.
Qed.

(** X15: a state file that does not parse makes [update], [record_trade] and
    [get_state] raise JSONDecodeError, and a status that is a list or an
    object, in the updates or else in the loaded state, makes [update] raise
    TypeError; in each case neither the world nor the writer changes. *)
Theorem writer_errors_change_nothing self σ :
  (∀ mtime updates pnl side,
     files σ !! state_file self = Some (File Malformed mtime) →
     update isoformat updates (self, σ) = (Raises JSONDecodeError, (self, σ))
     ∧ record_trade isoformat pnl side (self, σ) = (Raises JSONDecodeError, (self, σ))
     ∧ get_state (self, σ) = (Raises JSONDecodeError, (self, σ)))
  ∧ (∀ (updates current : dict) status,
       loaded self σ = Returns current →
       (updates ∪ current) !! "status" = Some status →
       (∃ l, status = JArr l) ∨ (∃ m, status = JObj m) →
       update isoformat updates (self, σ) = (Raises TypeError, (self, σ))).
Proof.
  split.
  - intros mtime updates pnl side Hf. split; [|split].
    + rewrite update_unfold. unfold loaded. by rewrite Hf.
    + unfold record_trade. run. unfold path_exists, read_json. rewrite Hf.
      run. by rewrite Hf.
    + unfold get_state. run. unfold path_exists, read_json. rewrite Hf.
      run. by rewrite Hf.
  - intros updates current status Hl Hs Hshape.
    rewrite update_unfold, Hl. unfold dict_get. rewrite Hs.
    by destruct Hshape as [[l ->]|[m ->]].
Qed.

Ltac outcome_cases :=
  match goal with
  | |- context [color_map_get ?x] => destruct (color_map_get x) eqn:?
  | |- context [py_add ?x ?y] => destruct (py_add x y) eqn:?
  end.

(** What a method that writes once leaves in the directory. *)
Lemma writes_once_files (m : W dict) self b σ cur self' σ' :
  writes_once isoformat m →
  state_file self = state_file_of b →
  m (self, σ) = (Returns cur, (self', σ')) →
  ∃ mtime,
    files σ' = <[state_file_of b := File (Document cur) mtime]>
                 (delete (b, ".tmp") (files σ)).
Proof.
  intros Hm Hsf Hrun. specialize (Hm self σ). rewrite Hrun in Hm.
  destruct Hm as (state & self0 & σ0 & Hsf0 & Hfiles & Hw).
  rewrite write_returns_written in Hw. injection Hw as <- <-.
  rewrite Hsf in Hsf0. rewrite (written_files _ b) by done.
  rewrite Hsf0, Hfiles. by eexists.
Qed.

Lemma writes_once_touches (m : W dict) self b σ :
  writes_once isoformat m →
  state_file self = state_file_of b →
  touches_own_files_only m self b σ.
Proof.
  intros Hw Hsf. unfold touches_own_files_only.
  pose proof (Hw self σ) as Hraise.
  destruct (m (self, σ)) as [[cur|e] [self' σ']] eqn:Hrun; [|exact Hraise].
  destruct (writes_once_files m self b σ cur self' σ' Hw Hsf Hrun) as [mtime Hfiles].
  unfold holds_document. rewrite Hfiles.
  split; [exists mtime; by rewrite lookup_insert_eq|].
  split.
  - rewrite lookup_insert_ne by done. by rewrite lookup_delete_eq.
  - intros q H1 H2. by rewrite lookup_insert_ne, lookup_delete_ne.
Qed.

(** X16: when [update] or [record_trade] returns, the state file of the bot
    holds the returned record, no temporary file of the bot is left (not even
    one that was there before), and every other file of the directory is as
    it was; when they raise, no file has changed. *)
Theorem persist_touches_own_files_only self b σ :
  state_file self = state_file_of b →
  (∀ updates, touches_own_files_only (update isoformat updates) self b σ)
  ∧ (∀ pnl side,
       touches_own_files_only (record_trade isoformat pnl side) self b σ).
Proof.
  intros Hsf. split; intros; apply writes_once_touches; try done.
  - apply update_writes_once.
  - apply record_trade_writes_once.
Qed.

(** [record_trade] on a state file that holds a document. *)
Lemma record_trade_present self σ d mtime pnl side n m x y :
  files σ !! state_file self = Some (File (Document d) mtime) →
  py_add (dict_get d "trades_total" (JInt 0)) (JInt 1) = Returns n →
  py_add (dict_get d "trades_24h" (JInt 0)) (JInt 1) = Returns m →
  py_add (dict_get d "pnl_total" (JInt 0)) (JFloat pnl) = Returns x →
  py_add (dict_get d "pnl_24h" (JInt 0)) (JFloat pnl) = Returns y →
  record_trade isoformat pnl side (self, σ)
  = _write isoformat
      (<["last_trade" := JObj (<["time" := JStr (isoformat (time σ))]> $
                               <["pnl" := JFloat pnl]> {["side" := JStr side]})]> $
       <["pnl_24h" := y]> $ <["pnl_total" := x]> $
       <["trades_24h" := m]> $ <["trades_total" := n]> d) (self, tick σ).
Proof.
  intros Hf Hn Hm Hx Hy. unfold record_trade. run.
  unfold path_exists, read_json. rewrite Hf. run. rewrite Hf.
  cbn [json_loads content]. rewrite Hn.
  unfold dict_get in *. rewrite lookup_insert_ne, Hm by done.
  rewrite !lookup_insert_ne, Hx by done.
  rewrite !lookup_insert_ne, Hy by done.
  by rewrite !write_returns.
Qed.

(** [record_trade] without a state file: the default record is the one
    that is modified. *)
Lemma record_trade_absent self σ pnl side n m x y :
  files σ !! state_file self = None →
  let d := _default_state self in
  py_add (dict_get d "trades_total" (JInt 0)) (JInt 1) = Returns n →
  py_add (dict_get d "trades_24h" (JInt 0)) (JInt 1) = Returns m →
  py_add (dict_get d "pnl_total" (JInt 0)) (JFloat pnl) = Returns x →
  py_add (dict_get d "pnl_24h" (JInt 0)) (JFloat pnl) = Returns y →
  let cur :=
    <["last_update" := JStr (isoformat (S (time σ)))]> $
    <["last_trade" := JObj (<["time" := JStr (isoformat (time σ))]> $
                            <["pnl" := JFloat pnl]> {["side" := JStr side]})]> $
    <["pnl_24h" := y]> $ <["pnl_total" := x]> $
    <["trades_24h" := m]> $ <["trades_total" := n]> d in
  record_trade isoformat pnl side (self, σ)
  = (Returns cur, (with_default_state cur self, written self cur (tick σ))).
Proof.
  intros Hf d Hn Hm Hx Hy cur. unfold record_trade. run.
  unfold path_exists, read_json. rewrite Hf. run. fold d. rewrite Hn.
  unfold dict_get in *. rewrite lookup_insert_ne, Hm by done.
  rewrite !lookup_insert_ne, Hx by done.
  rewrite !lookup_insert_ne, Hy by done.
  rewrite write_returns. reflexivity.
Qed.

Lemma py_add_not_a_number (v w : json) :
  as_number v = None → py_add v w = Raises TypeError.
Proof. intros Hv. unfold py_add. by rewrite Hv. Qed.

Lemma float_of_int_zero : float_of_int 0 = Returns 0%float.
Proof. reflexivity. Qed.

(** X17: on a record that has none of the four counters, [record_trade]
    starts each of them from zero. *)
Theorem record_trade_missing_counters self σ d mtime pnl side :
  files σ !! state_file self = Some (File (Document d) mtime) →
  d !! "trades_total" = None → d !! "trades_24h" = None →
  d !! "pnl_total" = None → d !! "pnl_24h" = None →
  ∃ cur σ',
    record_trade isoformat pnl side (self, σ) = (Returns cur, (self, σ'))
    ∧ holds_document σ' (state_file self) cur
    ∧ cur !! "trades_total" = Some (JInt 1)
    ∧ cur !! "trades_24h" = Some (JInt 1)
    ∧ cur !! "pnl_total" = Some (JFloat (0 + pnl))
    ∧ cur !! "pnl_24h" = Some (JFloat (0 + pnl))
    ∧ ∀ k, k ∉ ["trades_total"; "trades_24h"; "pnl_total"; "pnl_24h";
                "last_trade"; "last_update"] → cur !! k = d !! k.
Proof.
  intros Hf H1 H2 H3 H4.
  rewrite (record_trade_present self σ d mtime pnl side
             (JInt 1) (JInt 1) (JFloat (0 + pnl)) (JFloat (0 + pnl)) Hf);
    [|unfold dict_get; by rewrite ?H1, ?H2, ?H3, ?H4..].
  match goal with
  | |- context [_write _ ?st (self, ?w)] =>
      pose proof (write_persists isoformat self st w) as Hdoc;
      rewrite (write_returns isoformat self st w) in *
  end.
  do 2 eexists. split; [reflexivity|]. split; [exact Hdoc|].
  do 4 (split; [by rewrite !lookup_insert_ne, lookup_insert_eq by done|]).
  intros k Hk. repeat (apply not_elem_of_cons in Hk as [? Hk]).
  by rewrite !lookup_insert_ne by done.
Qed.

(** X18: a counter that is on disk but is not a number (a string, null, a
    list, an object) makes [record_trade] raise, and no file changes. *)
Theorem record_trade_rejects_non_numbers self σ d mtime pnl side k v :
  files σ !! state_file self = Some (File (Document d) mtime) →
  k ∈ ["trades_total"; "trades_24h"; "pnl_total"; "pnl_24h"] →
  d !! k = Some v → as_number v = None →
  ∃ e s', record_trade isoformat pnl side (self, σ) = (Raises e, s')
          ∧ files s'.2 = files σ.
Proof.
  intros Hf Hk Hv Hnum.
  pose proof (record_trade_writes_once isoformat pnl side self σ) as Hw.
  destruct (record_trade isoformat pnl side (self, σ)) as [[cur|e] [self' σ']] eqn:Hrun;
    [|by exists e, (self', σ')].
  exfalso. clear Hw. revert Hrun. unfold record_trade. run.
  unfold path_exists, read_json. rewrite Hf. run. rewrite Hf.
  cbn [json_loads content]. unfold dict_get.
  repeat (apply elem_of_cons in Hk as [->|Hk]); [..|by apply elem_of_nil in Hk];
    repeat (rewrite ?lookup_insert_ne by done;
            first [ rewrite Hv; cbn [default from_option id];
                    rewrite (py_add_not_a_number v) by done; discriminate
                  | outcome_cases; [|discriminate] ]).
Qed.

Lemma record_trade_same_file pnl side s :
  state_file (record_trade isoformat pnl side s).2.1 = state_file s.1.
Proof.
  destruct s as [self σ]. unfold record_trade. run.
  unfold path_exists, read_json.
  destruct (files σ !! state_file self) as [[[d|] mtime]|] eqn:Hf;
    run; rewrite ?Hf; cbn [json_loads content]; try done;
    repeat (outcome_cases; [|done]); by rewrite write_returns.
Qed.

Lemma get_state_document self σ d mtime :
  files σ !! state_file self = Some (File (Document d) mtime) →
  get_state (self, σ) = (Returns d, (self, σ)).
Proof.
  intros Hf. unfold get_state. run. unfold path_exists, read_json.
  rewrite Hf. run. by rewrite Hf.
Qed.

(** X19: what [update] or [record_trade] returns is what [get_state] reads
    back right after. *)
Theorem get_state_reads_back self b σ cur s' :
  state_file self = state_file_of b →
  (∃ updates, update isoformat updates (self, σ) = (Returns cur, s'))
  ∨ (∃ pnl side, record_trade isoformat pnl side (self, σ) = (Returns cur, s')) →
  get_state s' = (Returns cur, s').
Proof.
  intros Hsf Hrun. destruct s' as [self' σ'].
  assert (state_file self' = state_file_of b ∧ holds_document σ' (state_file_of b) cur)
    as [Hsf' [mtime Hdoc]].
  { destruct Hrun as [[u Hrun]|(pnl & side & Hrun)].
    - destruct (writes_once_files _ self b σ cur self' σ'
                  (update_writes_once isoformat u) Hsf Hrun) as [mtime Hfiles].
      split; [|exists mtime; by rewrite Hfiles, lookup_insert_eq].
      rewrite update_unfold in Hrun. destruct (loaded self σ); [|done].
      destruct (color_map_get _); [|done].
      rewrite write_returns in Hrun. by injection Hrun as _ <- _.
    - destruct (writes_once_files _ self b σ cur self' σ'
                  (record_trade_writes_once isoformat pnl side) Hsf Hrun)
        as [mtime Hfiles].
      split; [|exists mtime; by rewrite Hfiles, lookup_insert_eq].
      pose proof (record_trade_same_file pnl side (self, σ)) as Hs.
      rewrite Hrun in Hs. simpl in Hs. by rewrite Hs. }
  rewrite <- Hsf' in Hdoc. by apply get_state_document in Hdoc.
Qed.

(** X20: [update] and [get_state] never modify the writer, whatever they
    return or raise, and neither does [record_trade] when the state file
    exists. *)
Theorem writer_object_unchanged self σ :
  (∀ updates, (update isoformat updates (self, σ)).2.1 = self)
  ∧ (get_state (self, σ)).2.1 = self
  ∧ (∀ pnl side f, files σ !! state_file self = Some f →
                   (record_trade isoformat pnl side (self, σ)).2.1 = self).
Proof.
  split; [|split].
  - intros updates. rewrite update_unfold. destruct (loaded self σ); [|done].
    destruct (color_map_get _); [|done]. by rewrite write_returns.
  - unfold get_state. run. unfold path_exists, read_json.
    destruct (files σ !! state_file self) as [[[d|] mtime]|] eqn:Hf;
      run; by rewrite ?Hf.
  - intros pnl side [[d|] mtime] Hf; unfold record_trade; run;
      unfold path_exists, read_json; rewrite Hf; run; rewrite Hf;
      cbn [json_loads content]; try done.
    repeat (outcome_cases; [|done]). by rewrite write_returns.
Qed.

(** X21: without a state file [record_trade] works on the writer's default
    record itself: it counts from the defaults, writes the file, and the
    returned record becomes the writer's default record; if the file is then
    removed, the next [record_trade] continues from that record. *)
Theorem record_trade_without_file self b σ pnl side (n m : Z) (x y : float) :
  state_file self = state_file_of b →
  files σ !! state_file_of b = None →
  _default_state self !! "trades_total" = Some (JInt n) →
  _default_state self !! "trades_24h" = Some (JInt m) →
  _default_state self !! "pnl_total" = Some (JFloat x) →
  _default_state self !! "pnl_24h" = Some (JFloat y) →
  ∃ cur σ',
    record_trade isoformat pnl side (self, σ)
    = (Returns cur, (with_default_state cur self, σ'))
    ∧ holds_document σ' (state_file_of b) cur
    ∧ cur !! "trades_total" = Some (JInt (n + 1))
    ∧ cur !! "pnl_total" = Some (JFloat (x + pnl))
    ∧ ∀ pnl2 side2, ∃ cur2 s2,
        record_trade isoformat pnl2 side2
          (with_default_state cur self, unlink (state_file_of b) σ')
        = (Returns cur2, s2)
        ∧ cur2 !! "trades_total" = Some (JInt (n + 1 + 1))
        ∧ cur2 !! "pnl_total" = Some (JFloat (x + pnl + pnl2)).
Proof.
  intros Hsf Hf Hn Hm Hx Hy. rewrite <- Hsf in Hf.
  pose proof (record_trade_absent self σ pnl side (JInt (n + 1)) (JInt (m + 1))
                (JFloat (x + pnl)) (JFloat (y + pnl)) Hf) as Hrun.
  cbv zeta in Hrun. unfold dict_get in Hrun. rewrite Hn, Hm, Hx, Hy in Hrun.
  specialize (Hrun eq_refl eq_refl eq_refl eq_refl).
  eexists _, _. split; [exact Hrun|].
  split.
  { rewrite <- Hsf. unfold holds_document. rewrite (written_files _ b) by done.
    rewrite lookup_insert_eq. by eexists. }
  split; [by rewrite !lookup_insert_ne, lookup_insert_eq by done|].
  split; [by rewrite !lookup_insert_ne, lookup_insert_eq by done|].
  intros pnl2 side2.
  match type of Hrun with
  | _ = (Returns ?c, (_, ?w)) => set (cur := c) in *; set (σ' := w) in *
  end.
  assert (files (unlink (state_file_of b) σ')
            !! state_file (with_default_state cur self) = None) as Hf2.
  { unfold unlink. simpl. rewrite Hsf. apply lookup_delete_eq. }
  pose proof (record_trade_absent (with_default_state cur self)
                (unlink (state_file_of b) σ') pnl2 side2
                (JInt (n + 1 + 1)) (JInt (m + 1 + 1))
                (JFloat (x + pnl + pnl2)) (JFloat (y + pnl + pnl2)) Hf2) as Hrun2.
  cbv zeta in Hrun2. unfold dict_get in Hrun2. cbn [_default_state with_default_state] in Hrun2.
  assert (cur !! "trades_total" = Some (JInt (n + 1))) as Hc1
    by (unfold cur; by rewrite !lookup_insert_ne, lookup_insert_eq by done).
  assert (cur !! "trades_24h" = Some (JInt (m + 1))) as Hc2
    by (unfold cur; by rewrite !lookup_insert_ne, lookup_insert_eq by done).
  assert (cur !! "pnl_total" = Some (JFloat (x + pnl))) as Hc3
    by (unfold cur; by rewrite !lookup_insert_ne, lookup_insert_eq by done).
  assert (cur !! "pnl_24h" = Some (JFloat (y + pnl))) as Hc4
    by (unfold cur; by rewrite !lookup_insert_ne, lookup_insert_eq by done).
  rewrite Hc1, Hc2, Hc3, Hc4 in Hrun2.
  specialize (Hrun2 eq_refl eq_refl eq_refl eq_refl).
  eexists _, _. split; [exact Hrun2|].
  split; by rewrite !lookup_insert_ne, lookup_insert_eq by done.
Qed.

Lemma color_of_string (d : dict) s :
  d !! "status" = Some (JStr s) →
  color_map_get (dict_get d "status" (JStr "unknown"))
  = Returns (default "yellow" (color_map !! s)).
Proof. intros Hs. unfold dict_get. by rewrite Hs. Qed.

(** X22: [set_running] sets the status running and the colour green and lays
    the extra fields over the record, unless the extra fields themselves
    carry a status, which then wins over running; no extra fields and an
    empty dictionary of them are the same. *)
Theorem set_running_status self σ current extra_fields :
  loaded self σ = Returns current →
  let extra := default ∅ extra_fields in
  (extra !! "status" = None →
   ∃ cur σ',
     set_running isoformat extra_fields (self, σ) = (Returns cur, (self, σ'))
     ∧ cur !! "status" = Some (JStr "running")
     ∧ cur !! "status_color" = Some (JStr "green")
     ∧ (∀ k v, k ∉ ["status_color"; "last_update"] →
               extra !! k = Some v → cur !! k = Some v)
     ∧ (∀ k, k ∉ ["status"; "status_color"; "last_update"] →
             extra !! k = None → cur !! k = current !! k))
  ∧ (∀ s, extra !! "status" = Some (JStr s) →
     ∃ cur σ',
       set_running isoformat extra_fields (self, σ) = (Returns cur, (self, σ'))
       ∧ cur !! "status" = Some (JStr s)
       ∧ cur !! "status_color" = Some (JStr (default "yellow" (color_map !! s)))).
Proof.
  intros Hl extra.
  assert (set_running isoformat extra_fields
          = update isoformat (extra ∪ {["status" := JStr "running"]})) as ->.
  { unfold set_running, extra. destruct extra_fields as [e|]; simpl.
    - case_decide as He; [|done]. subst e. by rewrite (left_id_L ∅ (∪)).
    - by rewrite (left_id_L ∅ (∪)). }
  split.
  - intros Hs.
    assert ((extra ∪ {["status" := JStr "running"]} ∪ current : dict) !! "status"
            = Some (JStr "running")) as Hst.
    { apply lookup_union_Some_l. rewrite lookup_union_r by done.
      apply lookup_singleton_eq. }
    rewrite (update_returns _ _ _ _ _ Hl (color_of_string _ _ Hst)).
    do 2 eexists. split; [reflexivity|].
    split; [by rewrite !lookup_insert_ne by done|].
    split; [by rewrite lookup_insert_ne, lookup_insert_eq|].
    split.
    + intros k v [??]%not_in_two Hk. rewrite !lookup_insert_ne by done.
      by apply lookup_union_Some_l, lookup_union_Some_l.
    + intros k Hk He. repeat (apply not_elem_of_cons in Hk as [? Hk]).
      rewrite !lookup_insert_ne by done.
      rewrite lookup_union_r; [done|].
      rewrite lookup_union_r by done. by rewrite lookup_singleton_ne.
  - intros s Hs.
    assert ((extra ∪ {["status" := JStr "running"]} ∪ current : dict) !! "status"
            = Some (JStr s)) as Hst.
    { by apply lookup_union_Some_l, lookup_union_Some_l. }
    rewrite (update_returns _ _ _ _ _ Hl (color_of_string _ _ Hst)).
    do 2 eexists. split; [reflexivity|].
    split; [by rewrite !lookup_insert_ne by done|].
    by rewrite lookup_insert_ne, lookup_insert_eq.
Qed.

(** X23: [set_error] sets the status error, the colour red and last_error to
    the message; [set_paused] sets paused and yellow; [set_stopped] sets
    stopped and red; each keeps every other field of the loaded record but
    last_update. *)
Theorem setters_status self σ current :
  loaded self σ = Returns current →
  (∀ message, ∃ cur σ',
     set_error isoformat message (self, σ) = (Returns cur, (self, σ'))
     ∧ cur !! "status" = Some (JStr "error")
     ∧ cur !! "status_color" = Some (JStr "red")
     ∧ cur !! "last_error" = Some (JStr message)
     ∧ ∀ k, k ∉ ["status"; "status_color"; "last_update"; "last_error"] →
            cur !! k = current !! k)
  ∧ (∃ cur σ',
       set_paused isoformat (self, σ) = (Returns cur, (self, σ'))
       ∧ cur !! "status" = Some (JStr "paused")
       ∧ cur !! "status_color" = Some (JStr "yellow")
       ∧ ∀ k, k ∉ ["status"; "status_color"; "last_update"] →
              cur !! k = current !! k)
  ∧ (∃ cur σ',
       set_stopped isoformat (self, σ) = (Returns cur, (self, σ'))
       ∧ cur !! "status" = Some (JStr "stopped")
       ∧ cur !! "status_color" = Some (JStr "red")
       ∧ ∀ k, k ∉ ["status"; "status_color"; "last_update"] →
              cur !! k = current !! k).
Proof.
  intros Hl. split; [|split].
  - intros message. unfold set_error.
    set (u := <["status" := JStr "error"]> {["last_error" := JStr message]} : dict).
    assert ((u ∪ current) !! "status" = Some (JStr "error")) as Hst
      by (by apply lookup_union_Some_l).
    rewrite (update_returns _ _ _ _ _ Hl (color_of_string _ _ Hst)).
    do 2 eexists. split; [reflexivity|].
    split; [by rewrite !lookup_insert_ne by done|].
    split; [by rewrite lookup_insert_ne, lookup_insert_eq|].
    split; [rewrite !lookup_insert_ne by done; by apply lookup_union_Some_l|].
    intros k Hk. repeat (apply not_elem_of_cons in Hk as [? Hk]).
    rewrite !lookup_insert_ne by done. apply lookup_union_r.
    unfold u. by rewrite lookup_insert_ne, lookup_singleton_ne.
  - unfold set_paused.
    assert (({["status" := JStr "paused"]} ∪ current : dict) !! "status"
            = Some (JStr "paused")) as Hst
      by (apply lookup_union_Some_l, lookup_singleton_eq).
    rewrite (update_returns _ _ _ _ _ Hl (color_of_string _ _ Hst)).
    do 2 eexists. split; [reflexivity|].
    split; [by rewrite !lookup_insert_ne by done|].
    split; [by rewrite lookup_insert_ne, lookup_insert_eq|].
    intros k Hk. repeat (apply not_elem_of_cons in Hk as [? Hk]).
    rewrite !lookup_insert_ne by done. apply lookup_union_r.
    by rewrite lookup_singleton_ne.
  - unfold set_stopped.
    assert (({["status" := JStr "stopped"]} ∪ current : dict) !! "status"
            = Some (JStr "stopped")) as Hst
      by (apply lookup_union_Some_l, lookup_singleton_eq).
    rewrite (update_returns _ _ _ _ _ Hl (color_of_string _ _ Hst)).
    do 2 eexists. split; [reflexivity|].
    split; [by rewrite !lookup_insert_ne by done|].
    split; [by rewrite lookup_insert_ne, lookup_insert_eq|].
    intros k Hk. repeat (apply not_elem_of_cons in Hk as [? Hk]).
    rewrite !lookup_insert_ne by done. apply lookup_union_r.
    by rewrite lookup_singleton_ne.
Qed.

(** X24: [update_position] without a side sets position to null; with a side
    it sets position to a record of side, size, entry price and the instant
    of the call; in both cases the status and every field other than
    position, status_color and last_update are those of the loaded record. *)
Theorem update_position_sets_position self σ current c size entry_price :
  loaded self σ = Returns current →
  color_map_get (dict_get current "status" (JStr "unknown")) = Returns c →
  (∃ cur σ',
     update_position isoformat None size entry_price (self, σ)
     = (Returns cur, (self, σ'))
     ∧ cur !! "position" = Some JNull
     ∧ ∀ k, k ∉ ["position"; "status_color"; "last_update"] →
            cur !! k = current !! k)
  ∧ (∀ side, ∃ cur σ',
       update_position isoformat (Some side) size entry_price (self, σ)
       = (Returns cur, (self, σ'))
       ∧ cur !! "position"
         = Some (JObj (<["side" := JStr side]> $
                       <["size" := JFloat size]> $
                       <["entry_price" := json_of_option JFloat entry_price]>
                       {["opened_at" := JStr (isoformat (time σ))]}))
       ∧ cur !! "last_update" = Some (JStr (isoformat (S (time σ))))
       ∧ ∀ k, k ∉ ["position"; "status_color"; "last_update"] →
              cur !! k = current !! k).
Proof.
  intros Hl Hc.
  assert (∀ v : json,
            color_map_get (dict_get ({["position" := v]} ∪ current) "status"
                                    (JStr "unknown")) = Returns c) as Hc'.
  { intros v. unfold dict_get in *.
    by rewrite lookup_union_r by (by rewrite lookup_singleton_ne). }
  assert (∀ (v : json) k, k ∉ ["position"; "status_color"; "last_update"] →
            ∀ t, (<["last_update" := t]> $ <["status_color" := JStr c]>
                    ({["position" := v]} ∪ current) : dict) !! k = current !! k)
    as Hframe.
  { intros v k Hk t. repeat (apply not_elem_of_cons in Hk as [? Hk]).
    rewrite !lookup_insert_ne by done.
    by rewrite lookup_union_r by (by rewrite lookup_singleton_ne). }
  split.
  - unfold update_position. run.
    rewrite (update_returns _ _ _ _ _ Hl (Hc' JNull)).
    do 2 eexists. split; [reflexivity|].
    split; [|intros; by apply Hframe].
    rewrite !lookup_insert_ne by done.
    apply lookup_union_Some_l, lookup_singleton_eq.
  - intros side. unfold update_position. run.
    assert (loaded self (tick σ) = Returns current) as Hl' by exact Hl.
    rewrite (update_returns _ _ _ _ _ Hl' (Hc' _)).
    do 2 eexists. split; [reflexivity|].
    split.
    { rewrite !lookup_insert_ne by done.
      apply lookup_union_Some_l, lookup_singleton_eq. }
    split; [by rewrite lookup_insert_eq|].
    intros; by apply Hframe.
Qed.

(** X25: constructing a writer for a bot whose state file exists, whatever
    the file holds, changes nothing in the world; the writer carries the
    default record with a null last_update, and the bot id stands in for a
    name that is absent or empty. *)
Theorem init_keeps_existing_file b name f σ :
  files σ !! state_file_of b = Some f →
  let shown := match name with
               | Some n => if decide (n = "") then b else n
               | None => b
               end in
  __init__ isoformat b name σ
  = (Returns (Writer b shown (state_file_of b) (default_state b shown)), σ)
  ∧ default_state b shown !! "last_update" = Some JNull
  ∧ default_state b shown !! "bot_name" = Some (JStr shown).
Proof.
  intros Hf shown. split; [|by split].
  unfold __init__, path_exists. cbn [state_file]. by rewrite Hf.
Qed.

End WriterMethods.

(** ** The further properties on the sample inputs *)

Lemma ghost_is_unknown : "ghost" ∉ bot_ids.
Proof.
  intros Hin. unfold bot_ids in Hin.
  repeat (apply elem_of_cons in Hin as [Hin|Hin]; [discriminate Hin|]).
  by apply elem_of_nil in Hin.
Qed.

(** X1 on the sample world: the one process is the market maker "mm_1h". *)
Lemma psutil_last_process_wins_witness :
  get_process_states sample_isoformat sample_world !! "mm_1h"
  = Some (psutil_entry sample_isoformat sample_process).
Proof.
  apply (proj1 (psutil_last_process_wins sample_isoformat sample_world
                  [sample_process] "mm_1h" eq_refl) [] sample_process []).
  - reflexivity.
  - split; [discriminate|vm_compute; reflexivity].
  - intros q Hq. by apply elem_of_nil in Hq.
Defined.

(** X2 on the fallback world: the first of the two lines gives the entry. *)
Lemma fallback_first_line_wins_witness :
  get_process_states sample_isoformat fallback_world !! "mm_1h"
  = Some (ProcState None true None "kimi 101 python3 mm_optimized_1h.py").
Proof.
  apply (proj1 (fallback_first_line_wins sample_isoformat fallback_world
                  "mm_1h" eq_refl)
           [] "kimi 101 python3 mm_optimized_1h.py"
           ["kimi 102 python3 mm_optimized_1h.py --paper"]).
  - reflexivity.
  - vm_compute; reflexivity.
  - intros y Hy. by apply elem_of_nil in Hy.
Defined.

(** X3 on the sample world. *)
Lemma process_map_bounded_witness :
  "mm_1h" ∈ bot_ids
  ∧ ps_running (psutil_entry sample_isoformat sample_process) = true
  ∧ String.length (ps_cmdline (psutil_entry sample_isoformat sample_process)) ≤ 200.
Proof.
  apply (proj1 (process_map_bounded sample_isoformat sample_world) "mm_1h").
  vm_compute; reflexivity.
Defined.

(** X7 on a write over the record of "ghost": "mm_1h" is seen as before. *)
Lemma readers_during_write_witness :
  state_file sample_writer = state_file_of "ghost"
  ∧ ∀ σ', σ' ∈ _write_trace sample_isoformat sample_writer ∅ traded_world →
          get_all_bot_states σ' !! "mm_1h"
          = get_all_bot_states traded_world !! "mm_1h".
Proof.
  split; [reflexivity|]. intros σ' Hin.
  apply (proj1 (readers_during_write sample_isoformat sample_writer "ghost" ∅
                  traded_world σ' eq_refl Hin) "mm_1h").
  discriminate.
Defined.

(** X10 on the sample world: the state file of "ghost" is still there. *)
Lemma reconcile_changes_fixed_files_only_witness :
  is_Some (files (reconcile sample_isoformat true sample_world).2
             !! state_file_of "ghost").
Proof.
  apply (proj1 (proj2 (reconcile_changes_fixed_files_only sample_isoformat true
                         (get_process_states sample_isoformat sample_world)
                         (get_file_states sample_isoformat sample_world)
                         sample_world (state_file_of "ghost")))).
  eexists. vm_compute; reflexivity.
Defined.

(** X12 on the sample world: "ghost" is not a known id. *)
Lemma unknown_bot_counts_as_missing_witness :
  issues_for "ghost" (reconcile sample_isoformat false sample_world).1
  = ["state_says_running_but_process_missing"].
Proof.
  apply (proj1 (unknown_bot_counts_as_missing sample_isoformat sample_world
                  "ghost" {["status" := JStr "running"]} 0
                  ghost_is_unknown eq_refl (or_introl eq_refl)) false).
Defined.

(** X13 on the sample world: the pid is that of the process. *)
Lemma synthesized_from_observation_witness :
  ∃ d, holds_document (reconcile sample_isoformat true sample_world).2
                      (state_file_of "mm_1h") d
       ∧ d !! "pid" = Some (JInt 4242).
Proof.
  destruct (synthesized_from_observation sample_isoformat sample_world "mm_1h"
              (psutil_entry sample_isoformat sample_process))
    as (d & Hdoc & _ & _ & Hpid & _); [reflexivity..|].
  exists d. exact (conj Hdoc Hpid).
Defined.

(** X14 on an update that supplies a pnl and a stamp of its own. *)
Lemma update_applies_fields_witness :
  ∃ cur σ',
    update sample_isoformat
      (<["pnl_24h" := JFloat 1]> {["last_update" := JStr "yesterday"]})
      (sample_writer, traded_world) = (Returns cur, (sample_writer, σ'))
    ∧ cur !! "last_update" = Some (JStr (sample_isoformat 7))
    ∧ cur !! "pnl_24h" = Some (JFloat 1).
Proof.
  destruct (update_applies_fields sample_isoformat
              (<["pnl_24h" := JFloat 1]> {["last_update" := JStr "yesterday"]})
              sample_writer traded_world traded_loaded "yellow")
    as (cur & σ' & Hrun & Hstamp & _ & Hsupplied & _);
    [reflexivity..|].
  exists cur, σ'. split; [exact Hrun|]. split; [exact Hstamp|].
  apply Hsupplied; [|vm_compute; reflexivity].
  intros Hin. repeat (apply elem_of_cons in Hin as [Hin|Hin]; [discriminate Hin|]).
  by apply elem_of_nil in Hin.
Defined.

(** X15 on the world whose state file does not parse, and on an update of
    "ghost" whose status is a list. *)
Lemma writer_errors_change_nothing_witness :
  update sample_isoformat {["status" := JStr "paused"]}
    (sample_writer, malformed_world)
  = (Raises JSONDecodeError, (sample_writer, malformed_world))
  ∧ update sample_isoformat {["status" := JArr [JStr "running"]]}
      (sample_writer, traded_world)
    = (Raises TypeError, (sample_writer, traded_world)).
Proof.
  split.
  - apply (proj1 (writer_errors_change_nothing sample_isoformat sample_writer
                    malformed_world) 0 {["status" := JStr "paused"]} 0%float ""
             eq_refl).
  - apply (proj2 (writer_errors_change_nothing sample_isoformat sample_writer
                    traded_world) {["status" := JArr [JStr "running"]]}
             traded_loaded (JArr [JStr "running"]) eq_refl).
    + apply lookup_union_Some_l, lookup_singleton_eq.
    + left. by exists [JStr "running"].
Defined.

(** X16 on an update of "ghost". *)
Lemma persist_touches_own_files_only_witness :
  state_file sample_writer = state_file_of "ghost"
  ∧ touches_own_files_only
      (update sample_isoformat {["status" := JStr "paused"]})
      sample_writer "ghost" traded_world.
Proof.
  split; [reflexivity|].
  apply (proj1 (persist_touches_own_files_only sample_isoformat sample_writer
                  "ghost" traded_world eq_refl)).
Defined.

(** X17 on the record of "ghost" in the sample world, which only has a
    status. *)
Lemma record_trade_missing_counters_witness :
  ∃ cur σ',
    record_trade sample_isoformat 2.5 "long" (sample_writer, sample_world)
    = (Returns cur, (sample_writer, σ'))
    ∧ cur !! "trades_total" = Some (JInt 1)
    ∧ cur !! "pnl_total" = Some (JFloat 2.5).
Proof.
  destruct (record_trade_missing_counters sample_isoformat sample_writer
              sample_world {["status" := JStr "running"]} 0 2.5%float "long")
    as (cur & σ' & Hrun & _ & Htt & _ & Hpt & _); [reflexivity..|].
  exists cur, σ'. exact (conj Hrun (conj Htt Hpt)).
Defined.

(** X18 on the record with trades_total = "many". *)
Lemma record_trade_rejects_non_numbers_witness :
  ∃ e s', record_trade sample_isoformat 2.5 "long" (sample_writer, odd_world)
          = (Raises e, s')
          ∧ files s'.2 = files odd_world.
Proof.
  apply (record_trade_rejects_non_numbers sample_isoformat sample_writer
           odd_world odd_record 0 2.5%float "long" "trades_total" (JStr "many")).
  - vm_compute; reflexivity.
  - by left.
  - vm_compute; reflexivity.
  - reflexivity.
Defined.

(** X19 on an update of "ghost". *)
Lemma get_state_reads_back_witness :
  ∃ cur s',
    update sample_isoformat {["status" := JStr "paused"]}
      (sample_writer, traded_world) = (Returns cur, s')
    ∧ get_state s' = (Returns cur, s').
Proof.
  assert (loaded sample_writer traded_world = Returns traded_loaded) as Hl
    by reflexivity.
  assert (color_map_get (dict_get ({["status" := JStr "paused"]} ∪ traded_loaded)
                                  "status" (JStr "unknown")) = Returns "yellow")
    as Hc by reflexivity.
  pose proof (update_returns sample_isoformat _ _ _ _ _ Hl Hc) as Hrun.
  eexists _, _. split; [exact Hrun|].
  apply (get_state_reads_back sample_isoformat sample_writer "ghost" traded_world
           _ _ eq_refl).
  left. eexists. exact Hrun.
Defined.

(** X20 on a trade recorded over the record of "ghost". *)
Lemma writer_object_unchanged_witness :
  (record_trade sample_isoformat 2.5 "long" (sample_writer, traded_world)).2.1
  = sample_writer.
Proof.
  apply (proj2 (proj2 (writer_object_unchanged sample_isoformat sample_writer
                         traded_world)) 2.5%float "long"
           (File (Document traded_record) 0)).
  vm_compute; reflexivity.
Defined.

(** X21 on the empty directory. *)
Lemma record_trade_without_file_witness :
  ∃ cur σ',
    record_trade sample_isoformat 2.5 "long" (sample_writer, empty_world)
    = (Returns cur, (with_default_state cur sample_writer, σ'))
    ∧ cur !! "trades_total" = Some (JInt 1).
Proof.
  destruct (record_trade_without_file sample_isoformat sample_writer "ghost"
              empty_world 2.5%float "long" 0%Z 0%Z 0%float 0%float)
    as (cur & σ' & Hrun & _ & Htt & _); [reflexivity..|].
  exists cur, σ'. exact (conj Hrun Htt).
Defined.

(** X22 on extra fields that carry a pnl. *)
Lemma set_running_status_witness :
  ∃ cur σ',
    set_running sample_isoformat (Some {["pnl_24h" := JFloat 1]})
      (sample_writer, traded_world) = (Returns cur, (sample_writer, σ'))
    ∧ cur !! "status" = Some (JStr "running")
    ∧ cur !! "status_color" = Some (JStr "green").
Proof.
  destruct (proj1 (set_running_status sample_isoformat sample_writer traded_world
                     traded_loaded (Some {["pnl_24h" := JFloat 1]})
                     ltac:(reflexivity)))
    as (cur & σ' & Hrun & Hs & Hc & _); [reflexivity|].
  exists cur, σ'. exact (conj Hrun (conj Hs Hc)).
Defined.

(** X23 on the record of "ghost". *)
Lemma setters_status_witness :
  ∃ cur σ',
    set_stopped sample_isoformat (sample_writer, traded_world)
    = (Returns cur, (sample_writer, σ'))
    ∧ cur !! "status" = Some (JStr "stopped")
    ∧ cur !! "status_color" = Some (JStr "red").
Proof.
  destruct (proj2 (proj2 (setters_status sample_isoformat sample_writer
                            traded_world traded_loaded
                            ltac:(reflexivity))))
    as (cur & σ' & Hrun & Hs & Hc & _).
  exists cur, σ'. exact (conj Hrun (conj Hs Hc)).
Defined.

(** X24 on the record of "ghost". *)
Lemma update_position_sets_position_witness :
  ∃ cur σ',
    update_position sample_isoformat None 0.5 None (sample_writer, traded_world)
    = (Returns cur, (sample_writer, σ'))
    ∧ cur !! "position" = Some JNull.
Proof.
  destruct (proj1 (update_position_sets_position sample_isoformat sample_writer
                     traded_world traded_loaded "yellow" 0.5%float None
                     ltac:(reflexivity)
                     ltac:(reflexivity)))
    as (cur & σ' & Hrun & Hp & _).
  exists cur, σ'. exact (conj Hrun Hp).
Defined.

(** X25 on the world that has a state file for "ghost". *)
Lemma init_keeps_existing_file_witness :
  __init__ sample_isoformat "ghost" (Some "") traded_world
  = (Returns (Writer "ghost" "ghost" (state_file_of "ghost")
                (default_state "ghost" "ghost")), traded_world).
Proof.
  apply (proj1 (init_keeps_existing_file sample_isoformat "ghost" (Some "")
                  (File (Document traded_record) 0) traded_world
                  ltac:(reflexivity))).
Defined.
